(** * The posts handler (lambda/CS351-Project-Posts/index.mjs)

    A shallow embedding of the request handler and of the JavaScript it is
    written in, followed by the properties of its specification.

    - JavaScript values are a tree type [Value]; numbers are the integers
      (exact below 2^53, as in the engine), [NaN] and the two infinities.
      Fractional numbers are outside this number domain.
    - The engine's two parsers, [Number] applied to a string and
      [JSON.parse], are not part of the repository: they are the fields of
      the class [Runtime], and every property holds for every runtime.
      [Reference.runtime] is an executable instance used by the examples.
    - An [async function] is a computation over a [World] (the table, the
      clock, the faults the storage service will answer with, and the log of
      storage calls issued) that ends in a settled promise.
    - The storage service is the in-memory table of the specification. *)

From Stdlib Require Import ZArith List String Ascii Bool Lia.
From Stdlib Require Import Permutation Sorted DecimalString.
Import ListNotations.
Local Open Scope string_scope.
Local Open Scope Z_scope.
Set Warnings "-register-all".

(** ** JavaScript values *)

Inductive Num : Type :=
| Int (z : Z)
| NaN
| PosInf
| NegInf.

Inductive Value : Type :=
| VUndefined
| VNull
| VBool (b : bool)
| VNum (n : Num)
| VStr (s : string)
| VArr (elems : list Value)
| VObj (props : list (string * Value)).

(** The own enumerable properties of an object, in enumeration order. *)
Definition Props : Type := list (string * Value).

(** A thrown error object: the [name] it inherits from its prototype and its
    own properties ([stack] and [message] for the engine's errors, both
    non-enumerable; the frames of [stack] are left out). *)
Record Error : Type := mkError {
  error_name : string;
  own_properties : Props
}.

Definition new_Error (name message : string) : Error :=
  mkError name
    [("stack", VStr (name ++ ": " ++ message)); ("message", VStr message)].

Definition TypeError (message : string) : Error := new_Error "TypeError" message.
Definition SyntaxError (message : string) : Error := new_Error "SyntaxError" message.

(** How a synchronous evaluation completes. *)
Inductive completion (A : Type) : Type :=
| Normal (a : A)
| Throw (e : Error).
Arguments Normal {A} a.
Arguments Throw {A} e.

(** ** Numbers *)

Definition num_neg (a : Num) : Num :=
  match a with
  | Int x => Int (- x)
  | NaN => NaN
  | PosInf => NegInf
  | NegInf => PosInf
  end.

Definition num_add (a b : Num) : Num :=
  match a, b with
  | NaN, _ | _, NaN => NaN
  | Int x, Int y => Int (x + y)
  | PosInf, NegInf | NegInf, PosInf => NaN
  | PosInf, _ | _, PosInf => PosInf
  | NegInf, _ | _, NegInf => NegInf
  end.

Definition num_sub (a b : Num) : Num := num_add a (num_neg b).

(** [a === b] on two numbers. *)
Definition num_eqb (a b : Num) : bool :=
  match a, b with
  | Int x, Int y => x =? y
  | PosInf, PosInf | NegInf, NegInf => true
  | _, _ => false
  end.

Definition Number_toString (n : Num) : string :=
  match n with
  | Int z => NilZero.string_of_int (Z.to_int z)
  | NaN => "NaN"
  | PosInf => "Infinity"
  | NegInf => "-Infinity"
  end.

(** ** Objects and operators *)

Fixpoint get_prop (o : Props) (k : string) : Value :=
  match o with
  | [] => VUndefined
  | (k', v) :: r => if String.eqb k' k then v else get_prop r k
  end.

Definition has_own (o : Props) (k : string) : bool :=
  existsb (fun kv => String.eqb (fst kv) k) o.

(** [o[k] = v]: an existing property keeps its place. *)
Fixpoint set_prop (o : Props) (k : string) (v : Value) : Props :=
  match o with
  | [] => [(k, v)]
  | (k', v') :: r =>
      if String.eqb k' k then (k, v) :: r else (k', v') :: set_prop r k v
  end.

Definition ToBoolean (v : Value) : bool :=
  match v with
  | VUndefined | VNull => false
  | VBool b => b
  | VNum (Int z) => negb (z =? 0)
  | VNum NaN => false
  | VNum _ => true
  | VStr s => negb (String.eqb s EmptyString)
  | VArr _ | VObj _ => true
  end.

(** [a ?? b] *)
Definition nullish (a b : Value) : Value :=
  match a with
  | VUndefined | VNull => b
  | _ => a
  end.

(** [v === n] where [n] is a number. *)
Definition strict_equals_num (v : Value) (n : Num) : bool :=
  match v with
  | VNum m => num_eqb m n
  | _ => false
  end.

Fixpoint ToString (v : Value) : string :=
  match v with
  | VUndefined => "undefined"
  | VNull => "null"
  | VBool b => if b then "true" else "false"
  | VNum n => Number_toString n
  | VStr s => s
  | VArr l =>
      String.concat ","
        (map (fun e => match e with
                       | VUndefined | VNull => EmptyString
                       | _ => ToString e
                       end) l)
  | VObj _ => "[object Object]"
  end.

(** [v.k] for a name [k] that no built-in prototype defines (the handler
    reads [content], [timestamp], [votes], [ttl] and [id] only). *)
Definition member (v : Value) (k : string) : completion Value :=
  match v with
  | VUndefined =>
      Throw (TypeError ("Cannot read properties of undefined (reading '" ++ k ++ "')"))
  | VNull =>
      Throw (TypeError ("Cannot read properties of null (reading '" ++ k ++ "')"))
  | VObj o => Normal (get_prop o k)
  | _ => Normal VUndefined
  end.

(** [v.hasOwnProperty(k)] for a name [k] that is neither [length] nor an
    index. The method is found on [Object.prototype] unless the object has
    an own property of that name; a parsed JSON value is never callable. *)
Definition hasOwnProperty (v : Value) (k : string) : completion bool :=
  match v with
  | VUndefined =>
      Throw (TypeError "Cannot read properties of undefined (reading 'hasOwnProperty')")
  | VNull =>
      Throw (TypeError "Cannot read properties of null (reading 'hasOwnProperty')")
  | VObj o =>
      if has_own o "hasOwnProperty"
      then Throw (TypeError "requestJSON.hasOwnProperty is not a function")
      else Normal (has_own o k)
  | _ => Normal false
  end.

(** ** Arrays and strings *)

(** The index a relative [start] or [end] argument of [slice] denotes. *)
Definition relative_index (len : Z) (n : Num) : Z :=
  match n with
  | NaN => 0
  | Int z => if z <? 0 then Z.max (len + z) 0 else Z.min z len
  | PosInf => len
  | NegInf => 0
  end.

Definition Array_slice {A : Type} (l : list A) (start end_ : Num) : list A :=
  let len := Z.of_nat (List.length l) in
  let k := relative_index len start in
  let final := relative_index len end_ in
  firstn (Z.to_nat (final - k)) (skipn (Z.to_nat k) l).

Definition String_slice (s : string) (start end_ : Num) : string :=
  let len := Z.of_nat (String.length s) in
  let k := relative_index len start in
  let final := relative_index len end_ in
  substring (Z.to_nat k) (Z.to_nat (final - k)) s.

Fixpoint Array_findIndex {A : Type} (p : A -> bool) (l : list A) : Z :=
  match l with
  | [] => -1
  | x :: r =>
      if p x then 0
      else let i := Array_findIndex p r in
           if i =? -1 then -1 else i + 1
  end.

(** [Array.prototype.sort] with a comparator. The standard asks for a stable
    sort; for a comparator that is a consistent ordering the result is the
    one of this insertion sort, whatever algorithm the engine runs. A
    comparator result of [NaN] counts as zero. *)
Definition keeps_order (c : Num) : bool :=
  match c with
  | Int z => z <=? 0
  | NaN => true
  | NegInf => true
  | PosInf => false
  end.

Fixpoint sort_insert {A : Type} (cmp : A -> A -> Num) (x : A) (l : list A) : list A :=
  match l with
  | [] => [x]
  | y :: r => if keeps_order (cmp x y) then x :: y :: r else y :: sort_insert cmp x r
  end.

Fixpoint Array_sort {A : Type} (cmp : A -> A -> Num) (l : list A) : list A :=
  match l with
  | [] => []
  | x :: r => sort_insert cmp x (Array_sort cmp r)
  end.

(** ** JSON.stringify *)

Definition dquote : string := String (ascii_of_nat 34) EmptyString.
Definition bslash : string := String (ascii_of_nat 92) EmptyString.

Definition hex_digit (n : nat) : string :=
  substring n 1 "0123456789abcdef".

Definition escape_char (c : ascii) : string :=
  let n := nat_of_ascii c in
  if Nat.eqb n 34 then bslash ++ dquote
  else if Nat.eqb n 92 then bslash ++ bslash
  else if Nat.eqb n 8 then bslash ++ "b"
  else if Nat.eqb n 9 then bslash ++ "t"
  else if Nat.eqb n 10 then bslash ++ "n"
  else if Nat.eqb n 12 then bslash ++ "f"
  else if Nat.eqb n 13 then bslash ++ "r"
  else if Nat.ltb n 32
       then bslash ++ "u00" ++ hex_digit (Nat.div n 16) ++ hex_digit (Nat.modulo n 16)
  else String c EmptyString.

Fixpoint escape_string (s : string) : string :=
  match s with
  | EmptyString => EmptyString
  | String c r => escape_char c ++ escape_string r
  end.

Definition QuoteJSONString (s : string) : string :=
  dquote ++ escape_string s ++ dquote.

(** The JSON text of a value other than [undefined]. [K] is the property
    list of a replacer array, when one is given: at every object, exactly
    the listed names are read, in the order of the list. A property whose
    value is [undefined] is left out; an [undefined] array element is
    written [null]. *)
Fixpoint serialize (K : option (list string)) (v : Value) : string :=
  match v with
  | VUndefined | VNull => "null"
  | VBool b => if b then "true" else "false"
  | VNum (Int z) => Number_toString (Int z)
  | VNum _ => "null"
  | VStr s => QuoteJSONString s
  | VArr l => "[" ++ String.concat "," (map (serialize K) l) ++ "]"
  | VObj o =>
      let fix own (o' : list (string * Value)) : list string :=
        match o' with
        | [] => []
        | (k, VUndefined) :: r => own r
        | (k, x) :: r => (QuoteJSONString k ++ ":" ++ serialize K x) :: own r
        end in
      let fix listed (o' : list (string * Value)) (k : string) : list string :=
        match o' with
        | [] => []
        | (k', x) :: r =>
            if String.eqb k' k
            then match x with
                 | VUndefined => []
                 | _ => [QuoteJSONString k ++ ":" ++ serialize K x]
                 end
            else listed r k
        end in
      "{" ++ String.concat ","
               (match K with
                | None => own o
                | Some ks => flat_map (listed o) (nodup string_dec ks)
                end) ++ "}"
  end.

(** [JSON.stringify(v)]: [undefined] has no JSON text and the call returns
    [undefined], not a string. *)
Definition JSON_stringify (v : Value) : Value :=
  match v with
  | VUndefined => VUndefined
  | _ => VStr (serialize None v)
  end.

(** [JSON.stringify(error, Object.getOwnPropertyNames(error))] *)
Definition getOwnPropertyNames (e : Error) : list string :=
  map fst (own_properties e).

Definition JSON_stringify_error (e : Error) : Value :=
  VStr (serialize (Some (getOwnPropertyNames e)) (VObj (own_properties e))).

(** ** The engine's parsers *)

(** [Number(s)] for a string [s], and [JSON.parse(s)], which throws a
    [SyntaxError] on a text that is not JSON. *)
Class Runtime : Type := {
  StringToNumber : string -> Num;
  JSON_parse : string -> completion Value
}.

(** ** The world of an invocation *)

Definition Item : Type := Props.

(** A request sent to the storage service; the table name is always
    [cs351-project-posts] and is left out. *)
Inductive StoreCall : Type :=
| Scan
| GetItem (key : Num)
| PutItem (item : Item)
| UpdateItem (key : Num) (UpdateExpression : string)
    (ExpressionAttributeValues : Props)
| DeleteItem (key : Num).

(** [table]: the stored records in scan order. [now], [ticks]: the clock in
    milliseconds and what it advances by after each reading. [faults]: for
    each coming storage request, the error the service answers with, if any.
    [calls]: the storage requests issued so far. *)
Record World : Type := mkWorld {
  table : list Item;
  now : Z;
  ticks : list Z;
  faults : list (option Error);
  calls : list StoreCall
}.

(** Synchronous code: it completes normally or throws. *)
Definition Sync (A : Type) : Type := World -> completion A * World.

Definition ret {A : Type} (a : A) : Sync A := fun w => (Normal a, w).

Definition throw {A : Type} (e : Error) : Sync A := fun w => (Throw e, w).

Definition bind {A B : Type} (m : Sync A) (k : A -> Sync B) : Sync B :=
  fun w =>
    match m w with
    | (Normal a, w') => k a w'
    | (Throw e, w') => (Throw e, w')
    end.

Definition lift {A : Type} (c : completion A) : Sync A := fun w => (c, w).

(** [try { body } catch (error) { handler }] *)
Definition try_catch {A : Type} (body : Sync A) (handler : Error -> Sync A) : Sync A :=
  fun w =>
    match body w with
    | (Normal a, w') => (Normal a, w')
    | (Throw e, w') => handler e w'
    end.

Declare Scope js_scope.
Delimit Scope js_scope with js.
Notation "x <- m ;; k" := (bind m (fun x => k))
  (at level 61, m at next level, right associativity) : js_scope.
Local Open Scope js_scope.

(** A promise, by the state it settles in. *)
Inductive settled (A : Type) : Type :=
| Fulfilled (a : A)
| Rejected (e : Error).
Arguments Fulfilled {A} a.
Arguments Rejected {A} e.

Definition Promise (A : Type) : Type := World -> settled A * World.

(** The call of an [async function]: it never throws; an exception of the
    body rejects the promise the call returns. *)
Definition async {A : Type} (body : Sync A) : Promise A :=
  fun w =>
    match body w with
    | (Normal a, w') => (Fulfilled a, w')
    | (Throw e, w') => (Rejected e, w')
    end.

(** [await p]: the value of a fulfilled promise; a rejection is thrown at
    the [await]. *)
Definition await {A : Type} (p : Promise A) : Sync A :=
  fun w =>
    match p w with
    | (Fulfilled a, w') => (Normal a, w')
    | (Rejected e, w') => (Throw e, w')
    end.

(** What a [return] statement of an async function hands over: a plain
    value, or a promise that was not awaited. *)
Inductive returned (A : Type) : Type :=
| Plain (a : A)
| Thenable (p : Promise A).
Arguments Plain {A} a.
Arguments Thenable {A} p.

(** An [async function] whose body may return a promise: the promise of the
    call is resolved with what the body returns, and a returned promise
    settles it after the body, and every [try] block in it, has been left. *)
Definition async_returning {A : Type} (body : Sync (returned A)) : Promise A :=
  fun w =>
    match body w with
    | (Normal (Plain a), w') => (Fulfilled a, w')
    | (Normal (Thenable p), w') => p w'
    | (Throw e, w') => (Rejected e, w')
    end.

(** The world once the clock has been read: it has advanced by the next
    tick, if any. *)
Definition tick (w : World) : World :=
  mkWorld (table w) (now w + hd 0 (ticks w)) (tl (ticks w)) (faults w) (calls w).

(** [Date.now()] *)
Definition Date_now : Sync Z := fun w => (Normal (now w), tick w).

(** ** The storage service *)

(** The storage service is outside the repository (the document client of
    the AWS SDK). Its model is the keyed table that section 6 of the
    specification describes: scan returns all records, get returns one
    record or nothing, put writes a record under its [id], update sets the
    named fields of the record under a key (creating it when absent) and
    returns the updated record, delete removes the record under a key
    whether or not it exists. Any request may instead be answered with an
    error ([faults]). *)
Definition has_key (key : Num) (it : Item) : bool :=
  strict_equals_num (get_prop it "id") key.

Definition table_get (key : Num) (t : list Item) : Value :=
  match find (has_key key) t with
  | Some it => VObj it
  | None => VUndefined
  end.

Fixpoint table_put (key : Num) (it : Item) (t : list Item) : list Item :=
  match t with
  | [] => [it]
  | x :: r => if has_key key x then it :: r else x :: table_put key it r
  end.

Definition table_delete (key : Num) (t : list Item) : list Item :=
  filter (fun x => negb (has_key key x)) t.

Definition ValidationException (message : string) : Error :=
  new_Error "ValidationException" message.

Fixpoint split_on (sep : ascii) (s : string) : list string :=
  match s with
  | EmptyString => [EmptyString]
  | String c r =>
      if Ascii.eqb c sep then EmptyString :: split_on sep r
      else match split_on sep r with
           | [] => [String c EmptyString]
           | w :: ws => String c w :: ws
           end
  end.

Definition ends_with_comma (s : string) : bool :=
  String.eqb (substring (String.length s - 1) 1 s) ",".

Definition without_last (s : string) : string :=
  substring 0 (String.length s - 1) s.

(** The clauses [name = :placeholder] of a [set] expression, comma
    separated. *)
Fixpoint set_clauses (ws : list string) : option (list (string * string)) :=
  match ws with
  | name :: eq :: ph :: rest =>
      if negb (String.eqb eq "=") then None
      else match rest with
           | [] => Some [(name, ph)]
           | _ =>
               if ends_with_comma ph
               then option_map (cons (name, without_last ph)) (set_clauses rest)
               else None
           end
  | _ => None
  end.

Definition parse_set (UpdateExpression : string) : option (list (string * string)) :=
  match split_on " " UpdateExpression with
  | kw :: ws => if String.eqb kw "set" then set_clauses ws else None
  | [] => None
  end.

Fixpoint assign (clauses : list (string * string)) (values : Props) (it : Item)
  : option Item :=
  match clauses with
  | [] => Some it
  | (name, ph) :: r =>
      if has_own values ph
      then assign r values (set_prop it name (get_prop values ph))
      else None
  end.

Definition table_update (key : Num) (UpdateExpression : string) (values : Props)
    (t : list Item) : option Item :=
  let old := match find (has_key key) t with
             | Some it => it
             | None => [("id", VNum key)]
             end in
  match parse_set UpdateExpression with
  | Some clauses => assign clauses values old
  | None => None
  end.

(** One request to the service and the promise of its answer
    ([dynamo.op(params).promise()]). *)
Definition issued (w : World) (c : StoreCall) (t : list Item) : World :=
  mkWorld t (now w) (ticks w) (tl (faults w)) (calls w ++ [c]).

Definition request {A : Type} (c : StoreCall)
    (serve : list Item -> settled A * list Item) : Promise A :=
  fun w =>
    match hd None (faults w) with
    | Some e => (Rejected e, issued w c (table w))
    | None => (fst (serve (table w)), issued w c (snd (serve (table w))))
    end.

(** [result.Items] of a scan. *)
Definition dynamo_scan : Promise (list Item) :=
  request Scan (fun t => (Fulfilled t, t)).

(** [result.Item] of a get: [undefined] when no record has the key. *)
Definition dynamo_get (key : Num) : Promise Value :=
  request (GetItem key) (fun t => (Fulfilled (table_get key t), t)).

Definition dynamo_put (item : Item) : Promise unit :=
  request (PutItem item)
    (fun t =>
       match get_prop item "id" with
       | VNum key => (Fulfilled tt, table_put key item t)
       | _ => (Rejected (ValidationException "Missing the key id in the item"), t)
       end).

(** [result.Attributes] of an update with [ReturnValues: "ALL_NEW"]. *)
Definition dynamo_update (key : Num) (UpdateExpression : string)
    (ExpressionAttributeValues : Props) : Promise Value :=
  request (UpdateItem key UpdateExpression ExpressionAttributeValues)
    (fun t =>
       match table_update key UpdateExpression ExpressionAttributeValues t with
       | Some it => (Fulfilled (VObj it), table_put key it t)
       | None => (Rejected (ValidationException "Invalid UpdateExpression"), t)
       end).

Definition dynamo_delete (key : Num) : Promise unit :=
  request (DeleteItem key) (fun t => (Fulfilled tt, table_delete key t)).

(** ** Requests and responses *)

Record Event : Type := mkEvent {
  httpMethod : string;
  queryStringParameters : option (list (string * string));
  event_body : option string
}.

Record Response : Type := mkResponse {
  statusCode : Z;
  headers : option (list (string * string));
  body : Value
}.

Definition string_props (m : list (string * string)) : Props :=
  map (fun kv => (fst kv, VStr (snd kv))) m.

Definition strings_value (m : list (string * string)) : Value :=
  VObj (string_props m).

Definition option_value {A : Type} (f : A -> Value) (o : option A) : Value :=
  match o with
  | Some a => f a
  | None => VNull
  end.

(** The event as the object it is. *)
Definition event_value (event : Event) : Value :=
  VObj [("httpMethod", VStr (httpMethod event));
        ("queryStringParameters",
         option_value strings_value (queryStringParameters event));
        ("body", option_value VStr (event_body event))].

(** [queryStringParameters && queryStringParameters.k]; inside a branch
    guarded by it, [queryStringParameters.k]. *)
Definition param (event : Event) (k : string) : Value :=
  match queryStringParameters event with
  | None => VNull
  | Some m => get_prop (string_props m) k
  end.

(** The argument of [JSON.parse(body)] as the string it is converted to. *)
Definition body_text (event : Event) : string :=
  ToString (option_value VStr (event_body event)).

(** ** The handler *)

Section Handler.

Context {rt : Runtime}.

(** [Number(v)], and the conversion the operator [-] applies. Objects take
    the [toString] of their prototype. *)
Definition ToNumber (v : Value) : Num :=
  match v with
  | VUndefined => NaN
  | VNull => Int 0
  | VBool b => Int (if b then 1 else 0)
  | VNum n => n
  | VStr s => StringToNumber s
  | VArr _ | VObj _ => StringToNumber (ToString v)
  end.

Definition tableName : string := "cs351-project-posts".

Definition ok (v : Value) : Response :=
  {| statusCode := 200; headers := None; body := JSON_stringify v |}.

Definition error_response (code : Z) (message : string) : Response :=
  {| statusCode := code; headers := None;
     body := JSON_stringify (VObj [("error", VStr message)]) |}.

Definition DEFAULT_COUNT : Value := VNum (Int 1).

(** [(a, b) => b.timestamp - a.timestamp] *)
Definition most_recent_first (a b : Item) : Num :=
  num_sub (ToNumber (get_prop b "timestamp")) (ToNumber (get_prop a "timestamp")).

(** [Number(queryStringParameters.count ?? DEFAULT_COUNT)] *)
Definition count_of (event : Event) : Num :=
  ToNumber (nullish (param event "count") DEFAULT_COUNT).

Definition items_value (items : list Item) : Value := VArr (map VObj items).

(** The four branches of [handleGet]. *)
Definition get_latest (event : Event) : Sync Response :=
  result <- await dynamo_scan ;;
  let items := Array_sort most_recent_first result in
  ret (ok (items_value (Array_slice items (Int 0) (count_of event)))).

Definition get_before (event : Event) : Sync Response :=
  result <- await dynamo_scan ;;
  let items := Array_sort most_recent_first result in
  let idIndex :=
    Array_findIndex
      (fun item => strict_equals_num (get_prop item "id")
                     (ToNumber (param event "before")))
      items in
  if idIndex =? -1
  then ret (error_response 513
              ("No item found by id " ++ ToString (param event "before")))
  else
    let startIndex := idIndex + 1 in
    ret (ok (items_value
               (Array_slice items (Int startIndex)
                  (num_add (Int startIndex) (count_of event))))).

Definition get_by_id (event : Event) : Sync Response :=
  result <- await (dynamo_get (ToNumber (param event "id"))) ;;
  ret (ok result).

Definition get_all (event : Event) : Sync Response :=
  result <- await dynamo_scan ;;
  let items := Array_sort most_recent_first result in
  ret (ok (items_value items)).

Definition handleGet (event : Event) : Promise Response :=
  async
    (if ToBoolean (param event "latest") then get_latest event
     else if ToBoolean (param event "before") then get_before event
     else if ToBoolean (param event "id") then get_by_id event
     else get_all event).

Definition RETENTION_PERIOD : Z := 60 * 60 * 24 * 30.

Definition handlePut (event : Event) : Promise Response :=
  async
    (requestJSON <- lift (JSON_parse (body_text event)) ;;
     id <- Date_now ;;
     content <- lift (member requestJSON "content") ;;
     timestamp <- lift (member requestJSON "timestamp") ;;
     timestamp <- match timestamp with
                  | VUndefined | VNull =>
                      t <- Date_now ;; ret (VNum (Int t))
                  | _ => ret timestamp
                  end ;;
     votes <- lift (member requestJSON "votes") ;;
     seconds <- Date_now ;;
     let newPost : Item :=
       [("id", VNum (Int id));
        ("content", nullish content (VStr EmptyString));
        ("timestamp", timestamp);
        ("votes", nullish votes (VNum (Int 0)));
        ("ttl", VNum (Int (seconds / 1000 + RETENTION_PERIOD)))] in
     _ <- await (dynamo_put newPost) ;;
     result <- await (dynamo_get (Int id)) ;;
     ret (ok result)).

(** [if (requestJSON.hasOwnProperty(k)) { updateExpression += clause;
    attributeValues[ph] = requestJSON[k]; }] *)
Definition add_field (requestJSON : Value) (k clause ph : string)
    (st : string * Props) : Sync (string * Props) :=
  own <- lift (hasOwnProperty requestJSON k) ;;
  if (own : bool)
  then v <- lift (member requestJSON k) ;;
       ret (fst st ++ clause, set_prop (snd st) ph v)
  else ret st.

Definition handlePatch (event : Event) : Promise Response :=
  async
    (if ToBoolean (param event "id") then
       requestJSON <- lift (JSON_parse (body_text event)) ;;
       st <- add_field requestJSON "content" " content = :c," ":c" ("set", []) ;;
       st <- add_field requestJSON "timestamp" " timestamp = :t," ":t" st ;;
       st <- add_field requestJSON "votes" " votes = :v," ":v" st ;;
       st <- add_field requestJSON "ttl" " ttl = :ttl," ":ttl" st ;;
       let updateExpression := fst st in
       let attributeValues := snd st in
       if String.eqb updateExpression "set"
       then ret (error_response 400 "No fields to update")
       else
         let updateExpression := String_slice updateExpression (Int 0) (Int (-1)) in
         result <- await (dynamo_update (ToNumber (param event "id"))
                            updateExpression attributeValues) ;;
         ret (ok result)
     else ret (error_response 400 "Missing post ID")).

Definition success : Value := VObj [("success", VBool true)].

Definition handleDelete (event : Event) : Promise Response :=
  async
    (if ToBoolean (param event "id") then
       _ <- await (dynamo_delete (ToNumber (param event "id"))) ;;
       ret (ok success)
     else ret (error_response 400 "Missing post ID")).

Definition handleOptions (event : Event) : Promise Response :=
  async
    (ret {| statusCode := 200;
            headers := Some [("Access-Control-Allow-Origin", "*");
                             ("Access-Control-Allow-Methods",
                              "GET,PUT,PATCH,DELETE,OPTIONS")];
            body := JSON_stringify success |}).

(** The operations are called, not awaited: [return handleGet(event, context)]
    completes the [try] block with the promise of the call as its value, so
    the [catch] clause sees only what the block itself throws. *)
Definition handler (event : Event) : Promise Response :=
  async_returning
    (try_catch
       (let httpMethod := httpMethod event in
        if String.eqb httpMethod "GET" then ret (Thenable (handleGet event))
        else if String.eqb httpMethod "PUT" then ret (Thenable (handlePut event))
        else if String.eqb httpMethod "PATCH" then ret (Thenable (handlePatch event))
        else if String.eqb httpMethod "DELETE" then ret (Thenable (handleDelete event))
        else if String.eqb httpMethod "OPTIONS" then ret (Thenable (handleOptions event))
        else
          ret (Plain
                 {| statusCode := 400; headers := None;
                    body := JSON_stringify
                              (VObj [("error",
                                      VStr ("Unsupported method " ++ httpMethod));
                                     ("event", event_value event)]) |}))
       (fun error =>
          ret (Plain {| statusCode := 512; headers := None;
                        body := JSON_stringify_error error |}))).

End Handler.

(** ** A reference runtime

    An executable [Runtime] for the examples: the two parsers on the texts
    whose numbers are decimal integers. A text with a fraction or an exponent
    is outside the number domain; this instance refuses it. *)

Module Reference.

Definition code (c : ascii) : nat := nat_of_ascii c.

Definition is_digit (c : ascii) : bool :=
  Nat.leb 48 (code c) && Nat.leb (code c) 57.

Fixpoint digits_value (acc : Z) (cs : list ascii) : option Z :=
  match cs with
  | [] => Some acc
  | c :: r =>
      if is_digit c
      then digits_value (acc * 10 + Z.of_nat (code c - 48)) r
      else None
  end.

Definition is_white (c : ascii) : bool :=
  Nat.eqb (code c) 32 || (Nat.leb 9 (code c) && Nat.leb (code c) 13).

Fixpoint trim_left (cs : list ascii) : list ascii :=
  match cs with
  | c :: r => if is_white c then trim_left r else cs
  | [] => []
  end.

Definition trim (cs : list ascii) : list ascii :=
  rev (trim_left (rev (trim_left cs))).

Definition unsigned_number (cs : list ascii) : Num :=
  if String.eqb (string_of_list_ascii cs) "Infinity" then PosInf
  else match cs with
       | [] => NaN
       | _ => match digits_value 0 cs with
              | Some z => Int z
              | None => NaN
              end
       end.

Definition string_to_number (s : string) : Num :=
  match trim (list_ascii_of_string s) with
  | [] => Int 0
  | c :: r =>
      if Nat.eqb (code c) 45 then num_neg (unsigned_number r)
      else if Nat.eqb (code c) 43 then unsigned_number r
      else unsigned_number (c :: r)
  end.

Definition is_json_white (c : ascii) : bool :=
  Nat.eqb (code c) 32 || Nat.eqb (code c) 9 || Nat.eqb (code c) 10
  || Nat.eqb (code c) 13.

Fixpoint skip_white (cs : list ascii) : list ascii :=
  match cs with
  | c :: r => if is_json_white c then skip_white r else cs
  | [] => []
  end.

Definition hex_value (c : ascii) : option nat :=
  let n := code c in
  if is_digit c then Some (n - 48)%nat
  else if Nat.leb 97 n && Nat.leb n 102 then Some (n - 87)%nat
  else if Nat.leb 65 n && Nat.leb n 70 then Some (n - 55)%nat
  else None.

(** The characters of a string literal after its opening quote. *)
Fixpoint string_chars (cs : list ascii) : option (string * list ascii) :=
  let keep c r :=
    match string_chars r with
    | Some (s, rest) => Some (String c s, rest)
    | None => None
    end in
  match cs with
  | [] => None
  | c :: r =>
      if Nat.eqb (code c) 34 then Some (EmptyString, r)
      else if Nat.ltb (code c) 32 then None
      else if Nat.eqb (code c) 92 then
        match r with
        | e :: r' =>
            match code e with
            | 34%nat | 92%nat | 47%nat => keep e r'
            | 98%nat => keep (ascii_of_nat 8) r'
            | 102%nat => keep (ascii_of_nat 12) r'
            | 110%nat => keep (ascii_of_nat 10) r'
            | 114%nat => keep (ascii_of_nat 13) r'
            | 116%nat => keep (ascii_of_nat 9) r'
            | 117%nat =>
                match r' with
                | z1 :: z2 :: h :: l :: r'' =>
                    match hex_value z1, hex_value z2, hex_value h, hex_value l with
                    | Some O, Some O, Some a, Some b =>
                        keep (ascii_of_nat (16 * a + b)) r''
                    | _, _, _, _ => None
                    end
                | _ => None
                end
            | _ => None
            end
        | [] => None
        end
      else keep c r
  end.

Fixpoint take_digits (cs : list ascii) : list ascii * list ascii :=
  match cs with
  | c :: r =>
      if is_digit c
      then (c :: fst (take_digits r), snd (take_digits r))
      else ([], cs)
  | [] => ([], [])
  end.

(** An integer literal: no leading zero, no sign but [-]. *)
Definition number_literal (negative : bool) (cs : list ascii)
  : option (Value * list ascii) :=
  let ds := fst (take_digits cs) in
  let rest := snd (take_digits cs) in
  let more := match rest with
              | c :: _ => Nat.eqb (code c) 46 || Nat.eqb (code c) 101
                          || Nat.eqb (code c) 69
              | [] => false
              end in
  match ds, digits_value 0 ds with
  | d :: (_ :: _), _ =>
      if Nat.eqb (code d) 48 || more then None
      else option_map
             (fun z => (VNum (Int (if negative then - z else z)), rest))
             (digits_value 0 ds)
  | _ :: [], Some z =>
      if more then None
      else Some (VNum (Int (if negative then - z else z)), rest)
  | _, _ => None
  end.

Definition literal (word : string) (v : Value) (cs : list ascii)
  : option (Value * list ascii) :=
  let n := String.length word in
  if String.eqb (string_of_list_ascii (firstn n cs)) word
  then Some (v, skipn n cs)
  else None.

Fixpoint value (fuel : nat) (cs : list ascii) : option (Value * list ascii) :=
  match fuel with
  | O => None
  | S f =>
      match skip_white cs with
      | [] => None
      | c :: r =>
          match code c with
          | 110%nat => literal "null" VNull (c :: r)
          | 116%nat => literal "true" (VBool true) (c :: r)
          | 102%nat => literal "false" (VBool false) (c :: r)
          | 34%nat =>
              option_map (fun sr => (VStr (fst sr), snd sr)) (string_chars r)
          | 91%nat =>
              match skip_white r with
              | b :: r' =>
                  if Nat.eqb (code b) 93 then Some (VArr [], r')
                  else option_map (fun lr => (VArr (fst lr), snd lr))
                         (elements f r)
              | [] => None
              end
          | 123%nat =>
              match skip_white r with
              | b :: r' =>
                  if Nat.eqb (code b) 125 then Some (VObj [], r')
                  else option_map (fun lr => (VObj (fst lr), snd lr))
                         (members f [] r)
              | [] => None
              end
          | 45%nat => number_literal true r
          | _ => number_literal false (c :: r)
          end
      end
  end
with elements (fuel : nat) (cs : list ascii) : option (list Value * list ascii) :=
  match fuel with
  | O => None
  | S f =>
      match value f cs with
      | Some (v, r) =>
          match skip_white r with
          | c :: r' =>
              if Nat.eqb (code c) 93 then Some ([v], r')
              else if Nat.eqb (code c) 44
              then option_map (fun lr => (v :: fst lr, snd lr)) (elements f r')
              else None
          | [] => None
          end
      | None => None
      end
  end
with members (fuel : nat) (acc : Props) (cs : list ascii)
  : option (Props * list ascii) :=
  match fuel with
  | O => None
  | S f =>
      match skip_white cs with
      | q :: r =>
          if negb (Nat.eqb (code q) 34) then None
          else
            match string_chars r with
            | Some (k, r1) =>
                match skip_white r1 with
                | colon :: r2 =>
                    if negb (Nat.eqb (code colon) 58) then None
                    else
                      match value f r2 with
                      | Some (v, r3) =>
                          match skip_white r3 with
                          | c :: r4 =>
                              if Nat.eqb (code c) 125
                              then Some (set_prop acc k v, r4)
                              else if Nat.eqb (code c) 44
                              then members f (set_prop acc k v) r4
                              else None
                          | [] => None
                          end
                      | None => None
                      end
                | [] => None
                end
            | None => None
            end
      | [] => None
      end
  end.

Definition json_parse (s : string) : completion Value :=
  let cs := list_ascii_of_string s in
  match value (2 * List.length cs + 2) cs with
  | Some (v, rest) =>
      match skip_white rest with
      | [] => Normal v
      | _ => Throw (SyntaxError "Unexpected non-whitespace character after JSON")
      end
  | None => Throw (SyntaxError "Unexpected token in JSON")
  end.

#[export] Instance runtime : Runtime :=
  {| StringToNumber := string_to_number; JSON_parse := json_parse |}.

End Reference.

(** ** The modes of a GET request *)

Inductive GetMode : Type :=
| Latest
| Before
| ById
| ListAll.

Section Modes.

Context {rt : Runtime}.

Definition run_mode (m : GetMode) (event : Event) : Sync Response :=
  match m with
  | Latest => get_latest event
  | Before => get_before event
  | ById => get_by_id event
  | ListAll => get_all event
  end.

End Modes.

Fixpoint lookup_string (k : string) (m : list (string * string)) : option string :=
  match m with
  | [] => None
  | (k', s) :: r => if String.eqb k' k then Some s else lookup_string k r
  end.

(** The value of query parameter [k], when the request has one. *)
Definition parameter (event : Event) (k : string) : option string :=
  match queryStringParameters event with
  | Some m => lookup_string k m
  | None => None
  end.

(** The mode selection in the words of the specification: the first of
    [latest], [before], [id] that is present. *)
Definition is_present (event : Event) (k : string) : bool :=
  match parameter event k with
  | Some _ => true
  | None => false
  end.

Definition mode_by_presence (event : Event) : GetMode :=
  if is_present event "latest" then Latest
  else if is_present event "before" then Before
  else if is_present event "id" then ById
  else ListAll.

(** The mode selection by value: the first of [latest], [before], [id] that
    is present with a value other than the empty string. *)
Definition is_given (event : Event) (k : string) : bool :=
  match parameter event k with
  | Some s => negb (String.eqb s EmptyString)
  | None => false
  end.

Definition mode_by_value (event : Event) : GetMode :=
  if is_given event "latest" then Latest
  else if is_given event "before" then Before
  else if is_given event "id" then ById
  else ListAll.

(** ** Posts *)

(** The [timestamp] of a record that has an integer one. *)
Definition timestamp_key (it : Item) : Z :=
  match get_prop it "timestamp" with
  | VNum (Int t) => t
  | _ => 0
  end.

Definition has_timestamp (it : Item) : Prop :=
  exists t, get_prop it "timestamp" = VNum (Int t).

Definition newer_or_same (a b : Item) : Prop := timestamp_key a >= timestamp_key b.

Definition newer (a b : Item) : Prop := timestamp_key a > timestamp_key b.

(** ** The update of a PATCH request *)

(** The four fields a PATCH may set, each with its placeholder. *)
Definition patch_fields : list (string * string) :=
  [("content", ":c"); ("timestamp", ":t"); ("votes", ":v"); ("ttl", ":ttl")].

(** The update in the words of the specification: the fields that are own
    properties of the body, each with the value the body gives it. *)
Definition fields_present (o : Props) : list (string * string) :=
  filter (fun fp => has_own o (fst fp)) patch_fields.

Definition expected_expression (o : Props) : string :=
  "set " ++ String.concat ", "
              (map (fun fp => fst fp ++ " = " ++ snd fp) (fields_present o)).

Definition expected_values (o : Props) : Props :=
  map (fun fp => (snd fp, get_prop o (fst fp))) (fields_present o).

(** The state of [updateExpression] and [attributeValues] after the four
    tests. *)
Definition collected (o : Props) : string * Props :=
  let add k clause ph (st : string * Props) :=
    if has_own o k
    then (fst st ++ clause, set_prop (snd st) ph (get_prop o k))
    else st in
  add "ttl" " ttl = :ttl," ":ttl"
    (add "votes" " votes = :v," ":v"
       (add "timestamp" " timestamp = :t," ":t"
          (add "content" " content = :c," ":c" ("set", [])))).

(** The named properties of a parsed body: those of an object. A number, a
    string, a boolean and an array have none (an array and a string have
    [length] and indices only, which the handler never asks for). *)
Definition body_props (v : Value) : Props :=
  match v with
  | VObj o => o
  | _ => []
  end.

(** The storage request [c] sets field [f] to [v]. *)
Definition updates_field (c : StoreCall) (f : string) (v : Value) : Prop :=
  match c with
  | UpdateItem _ expression values =>
      exists clauses ph,
        parse_set expression = Some clauses /\ In (f, ph) clauses
        /\ has_own values ph = true /\ get_prop values ph = v
  | _ => False
  end.

(** ** The record of a PUT request *)

(** [v.k] where it does not throw. *)
Definition prop (v : Value) (k : string) : Value :=
  match v with
  | VObj o => get_prop o k
  | _ => VUndefined
  end.

(** The record in the words of the claim: every time field from the one
    creation instant. *)
Definition created_at (instant : Z) : Item :=
  [("id", VNum (Int instant));
   ("content", VStr EmptyString);
   ("timestamp", VNum (Int instant));
   ("votes", VNum (Int 0));
   ("ttl", VNum (Int (instant / 1000 + 2592000)))].

(** The record of an empty body from the three readings of the clock. *)
Definition created_from (t0 t1 t2 : Z) : Item :=
  [("id", VNum (Int t0));
   ("content", VStr EmptyString);
   ("timestamp", VNum (Int t1));
   ("votes", VNum (Int 0));
   ("ttl", VNum (Int (t2 / 1000 + 2592000)))].

(** The world after [timestamp] is evaluated in world [w1]: the clock is
    read only when the body gives none. *)
Definition after_timestamp (v : Value) (w1 : World) : World :=
  match prop v "timestamp" with
  | VUndefined | VNull => tick w1
  | _ => w1
  end.

(** The record [newPost] for the parsed body [v] in world [w]. *)
Definition new_post (v : Value) (w : World) : Item :=
  [("id", VNum (Int (now w)));
   ("content", nullish (prop v "content") (VStr EmptyString));
   ("timestamp", match prop v "timestamp" with
                 | VUndefined | VNull => VNum (Int (now (tick w)))
                 | t => t
                 end);
   ("votes", nullish (prop v "votes") (VNum (Int 0)));
   ("ttl", VNum (Int (now (after_timestamp v (tick w)) / 1000 + 2592000)))].

(** ** Sample data *)

Module Sample.

Definition quoted (s : string) : string := dquote ++ s ++ dquote.

Definition post (id timestamp : Z) (content : string) : Item :=
  [("id", VNum (Int id)); ("content", VStr content);
   ("timestamp", VNum (Int timestamp)); ("votes", VNum (Int 7));
   ("ttl", VNum (Int 1702592000))].

Definition A : Item := post 11 300 "a".
Definition B : Item := post 12 200 "b".
Definition C : Item := post 13 100 "c".

Definition empty : World := mkWorld [] 1700000000000 [] [] [].

(** The table of the specification's P3, in an order a scan may return. *)
Definition abc : World := mkWorld [B; C; A] 1700000000000 [] [] [].

Definition outage : Error := new_Error "ServiceUnavailable" "storage is down".

Definition GET (q : list (string * string)) : Event :=
  mkEvent "GET" (Some q) None.

Definition PATCH (id body : string) : Event :=
  mkEvent "PATCH" (Some [("id", id)]) (Some body).

(** The body [{"votes": 0, "content": "", "ttl": false}]. *)
Definition zero_values : string :=
  "{" ++ quoted "votes" ++ ": 0, " ++ quoted "content" ++ ": "
      ++ quoted EmptyString ++ ", " ++ quoted "ttl" ++ ": false}".

Definition PUT (body : string) : Event := mkEvent "PUT" None (Some body).

(** A world whose clock advances by a millisecond after each reading, and
    passes a full second at the first. *)
Definition ticking : World := mkWorld [] 1700000000999 [1; 1; 1] [] [].

(** The body [{"ttl": 5, "content": "hi"}]. *)
Definition with_ttl : string :=
  "{" ++ quoted "ttl" ++ ": 5, " ++ quoted "content" ++ ": " ++ quoted "hi" ++ "}".

Definition with_ttl_object : Props :=
  [("ttl", VNum (Int 5)); ("content", VStr "hi")].

(** A table with one record whose id is the reading of the clock. *)
Definition colliding : World :=
  mkWorld [post 1700000000999 300 "a"] 1700000000999 [1; 1; 1] [] [].

Definition zero_object : Props :=
  [("votes", VNum (Int 0)); ("content", VStr EmptyString); ("ttl", VBool false)].

(** The request of P3: the two records before the one with id 11. *)
Definition before_A : Event := GET [("before", "11"); ("count", "2")].

(** A PATCH whose body is [{"votes": 1, "hasOwnProperty": 1}]. *)
Definition shadowing : Event :=
  PATCH "11"
    ("{" ++ quoted "votes" ++ ": 1, " ++ quoted "hasOwnProperty" ++ ": 1}").

Definition DELETE (q : list (string * string)) : Event :=
  mkEvent "DELETE" (Some q) None.

Definition OPTIONS : Event :=
  mkEvent "OPTIONS" (Some [("id", "11"); ("latest", "1")]) (Some "not JSON").

(** A world whose storage service answers the first request with an error. *)
Definition down : World := mkWorld [B; C; A] 1700000000000 [] [Some outage] [].

(** A world whose storage service serves one request and fails the next. *)
Definition read_back_fails : World :=
  mkWorld [B] 1700000000000 [] [None; Some outage] [].

Definition has_timestamps_abc : Forall has_timestamp (table abc) :=
  Forall_cons B (ex_intro _ 200 eq_refl)
    (Forall_cons C (ex_intro _ 100 eq_refl)
       (Forall_cons A (ex_intro _ 300 eq_refl) (Forall_nil _))).

End Sample.

(** * Facts about the embedding *)

(** ** Arrays *)

Section ArrayFacts.

Context {A : Type}.
Local Open Scope list_scope.

Lemma sort_insert_perm (cmp : A -> A -> Num) (x : A) (l : list A) :
  Permutation (sort_insert cmp x l) (x :: l).
Proof.
  induction l as [| y r IH]; simpl.
  - apply Permutation_refl.
  - destruct (keeps_order (cmp x y)).
    + apply Permutation_refl.
    + eapply perm_trans; [apply perm_skip, IH | apply perm_swap].
Qed.

Lemma Array_sort_perm (cmp : A -> A -> Num) (l : list A) :
  Permutation (Array_sort cmp l) l.
Proof.
  induction l as [| x r IH]; simpl.
  - constructor.
  - eapply perm_trans; [apply sort_insert_perm | now apply perm_skip].
Qed.


Lemma findIndex_range (p : A -> bool) (l : list A) :
  -1 <= Array_findIndex p l < Z.of_nat (List.length l).
Proof.
  induction l as [| x r IH]; simpl List.length; simpl Array_findIndex.
  - lia.
  - destruct (p x); [lia |].
    destruct (Z.eqb_spec (Array_findIndex p r) (-1)); lia.
Qed.





(** A comparator that subtracts integer keys sorts by decreasing key. *)
Section ByKey.

Variable cmp : A -> A -> Num.
Variable key : A -> Z.
Variable keyed : A -> Prop.
Hypothesis cmp_key :
  forall a b, keyed a -> keyed b -> cmp a b = Int (key b - key a).

Let geq (a b : A) : Prop := key a >= key b.

Lemma sort_insert_sorted (x : A) (l : list A) :
  keyed x -> Forall keyed l ->
  StronglySorted geq l -> StronglySorted geq (sort_insert cmp x l).
Proof.
  intros Hx. induction l as [| y r IH]; intros Hl Hs; simpl.
  - repeat constructor.
  - inversion Hl as [| ? ? Hy Hr]; subst.
    inversion Hs as [| ? ? Hs' Hall]; subst.
    rewrite (cmp_key x y Hx Hy). simpl.
    destruct (Z.leb_spec (key y - key x) 0).
    + constructor; [assumption |].
      constructor; [unfold geq; lia |].
      eapply Forall_impl; [| exact Hall]. unfold geq. intros; lia.
    + constructor; [now apply IH |].
      eapply Permutation_Forall; [apply Permutation_sym, sort_insert_perm |].
      constructor; [unfold geq; lia | assumption].
Qed.

Lemma Array_sort_sorted (l : list A) :
  Forall keyed l -> StronglySorted geq (Array_sort cmp l).
Proof.
  induction l as [| x r IH]; intros Hl; simpl.
  - constructor.
  - inversion Hl; subst. apply sort_insert_sorted; auto.
    eapply Permutation_Forall; [apply Permutation_sym, Array_sort_perm | assumption].
Qed.

Lemma sorted_strict (l : list A) :
  NoDup (map key l) -> StronglySorted geq l ->
  StronglySorted (fun a b => key a > key b) l.
Proof.
  induction l as [| x r IH]; intros Hn Hs.
  - constructor.
  - inversion Hn as [| ? ? Hx Hr]; subst.
    inversion Hs as [| ? ? Hs' Hall]; subst.
    constructor; [now apply IH |].
    rewrite Forall_forall in *. intros y Hy.
    specialize (Hall y Hy). unfold geq in Hall.
    assert (key x <> key y); [| lia].
    intros E. apply Hx. rewrite E. now apply in_map.
Qed.

End ByKey.

End ArrayFacts.

(** ** Running the handler *)

Section HandlerFacts.

Context {rt : Runtime}.

Lemma request_served {A : Type} (c : StoreCall)
    (serve : list Item -> settled A * list Item) (w : World) :
  hd None (faults w) = None ->
  request c serve w = (fst (serve (table w)), issued w c (snd (serve (table w)))).
Proof. intros H. unfold request. now rewrite H. Qed.

Lemma request_faulted {A : Type} (c : StoreCall)
    (serve : list Item -> settled A * list Item) (w : World) (e : Error) :
  hd None (faults w) = Some e ->
  request c serve w = (Rejected e, issued w c (table w)).
Proof. intros H. unfold request. now rewrite H. Qed.

(** The promise of the handler settles as the promise of the operation it
    calls: the [try] statement around the call changes nothing. *)
Lemma handler_GET (event : Event) (w : World) :
  httpMethod event = "GET" -> handler event w = handleGet event w.
Proof. intros H. unfold handler, async_returning, try_catch. now rewrite H. Qed.

Lemma handler_PUT (event : Event) (w : World) :
  httpMethod event = "PUT" -> handler event w = handlePut event w.
Proof. intros H. unfold handler, async_returning, try_catch. now rewrite H. Qed.

Lemma handler_PATCH (event : Event) (w : World) :
  httpMethod event = "PATCH" -> handler event w = handlePatch event w.
Proof. intros H. unfold handler, async_returning, try_catch. now rewrite H. Qed.

Lemma handler_DELETE (event : Event) (w : World) :
  httpMethod event = "DELETE" -> handler event w = handleDelete event w.
Proof. intros H. unfold handler, async_returning, try_catch. now rewrite H. Qed.

Lemma handler_OPTIONS (event : Event) (w : World) :
  httpMethod event = "OPTIONS" -> handler event w = handleOptions event w.
Proof. intros H. unfold handler, async_returning, try_catch. now rewrite H. Qed.

(** What [try] and [await] do together, and what a bare [return] of a
    promise does not: only an awaited rejection reaches the [catch]. *)
Lemma awaited_rejection_is_caught {A : Type} (p : Promise A)
    (recover : Error -> A) (w w' : World) (e : Error) :
  p w = (Rejected e, w') ->
  async_returning
    (try_catch (a <- await p ;; ret (Plain a))
       (fun error => ret (Plain (recover error)))) w
  = (Fulfilled (recover e), w').
Proof.
  intros H. unfold async_returning, try_catch, bind, await, ret. now rewrite H.
Qed.

Lemma returned_rejection_is_not_caught {A : Type} (p : Promise A)
    (recover : Error -> A) (w : World) :
  async_returning
    (try_catch (ret (Thenable p)) (fun error => ret (Plain (recover error)))) w
  = p w.
Proof. reflexivity. Qed.

(** A body that cannot be parsed rejects the promise of a PUT. *)
Lemma put_unparsable (event : Event) (w : World) (e : Error) :
  httpMethod event = "PUT" ->
  JSON_parse (body_text event) = Throw e ->
  handler event w = (Rejected e, w).
Proof.
  intros Hm Hp. rewrite (handler_PUT _ _ Hm).
  unfold handlePut, async, bind, lift. now rewrite Hp.
Qed.

(** A storage fault rejects the promise of a GET without parameters. *)
Lemma get_faulted (event : Event) (w : World) (e : Error) :
  httpMethod event = "GET" ->
  queryStringParameters event = None ->
  hd None (faults w) = Some e ->
  handler event w = (Rejected e, issued w Scan (table w)).
Proof.
  intros Hm Hq Hf. rewrite (handler_GET _ _ Hm).
  unfold handleGet, param. rewrite Hq. simpl.
  unfold async, get_all, bind, await, dynamo_scan.
  now rewrite (request_faulted _ _ _ _ Hf).
Qed.

End HandlerFacts.

(** * The claims *)

(** C1. The claim: every error an operation raises (a storage failure, a
    body that does not parse) is caught by the handler and answered with
    status 512. On the code it is not: the handler returns the promise of
    the operation without awaiting it, so the rejection passes the [catch]
    clause. A PUT whose body is the text of one opening brace, and a GET
    answered by a storage fault, both end in a rejected promise and no
    response. *)
Theorem operation_errors_reject_the_handler :
  handler (rt := Reference.runtime) (mkEvent "PUT" None (Some "{")) Sample.empty
  = (Rejected (SyntaxError "Unexpected token in JSON"), Sample.empty)
  /\ fst (handler (rt := Reference.runtime) (mkEvent "GET" None None)
            (mkWorld [Sample.A] 0 [] [Some Sample.outage] []))
     = Rejected Sample.outage.
Proof. split; vm_compute; reflexivity. Qed.

Section GetFacts.

Context {rt : Runtime}.

Lemma param_parameter (event : Event) (k : string) :
  param event k = match parameter event k with
                  | Some s => VStr s
                  | None => match queryStringParameters event with
                            | Some _ => VUndefined
                            | None => VNull
                            end
                  end.
Proof.
  unfold param, parameter. destruct (queryStringParameters event) as [m |]; auto.
  induction m as [| [k' s] r IH]; simpl; auto.
  destruct (String.eqb k' k); auto.
Qed.

Lemma truthy_param (event : Event) (k : string) :
  ToBoolean (param event k) = is_given event k.
Proof.
  rewrite param_parameter. unfold is_given.
  destruct (parameter event k); simpl; auto.
  destruct (queryStringParameters event); reflexivity.
Qed.

Lemma handleGet_mode (event : Event) (w : World) :
  handleGet event w = async (run_mode (mode_by_value event) event) w.
Proof.
  unfold handleGet, mode_by_value. rewrite !truthy_param.
  destruct (is_given event "latest"); [reflexivity |].
  destruct (is_given event "before"); [reflexivity |].
  destruct (is_given event "id"); reflexivity.
Qed.

End GetFacts.

(** C8. The claim: a GET request runs exactly one of the four modes, the
    first of [latest], [before], [id] whose parameter is present, else the
    list of all records. As amended: the first of [latest], [before], [id]
    whose parameter is present with a non-empty value, else the list of all
    records. *)
Theorem get_runs_the_mode_selected_by_value
    {rt : Runtime} (event : Event) (w : World) :
  httpMethod event = "GET" ->
  handler event w = async (run_mode (mode_by_value event) event) w.
Proof. intros Hm. rewrite (handler_GET _ _ Hm). apply handleGet_mode. Qed.

Lemma get_runs_the_mode_selected_by_value_witness :
  httpMethod (Sample.GET [("latest", ""); ("before", "11")]) = "GET"
  /\ handler (rt := Reference.runtime)
       (Sample.GET [("latest", ""); ("before", "11")]) Sample.abc
     = async (run_mode (rt := Reference.runtime) Before
                (Sample.GET [("latest", ""); ("before", "11")])) Sample.abc.
Proof.
  split; [reflexivity |].
  apply (get_runs_the_mode_selected_by_value (rt := Reference.runtime)
           (Sample.GET [("latest", ""); ("before", "11")]) Sample.abc).
  reflexivity.
Defined.

(** C8, as stated, fails: with [latest] present as a flag without a value
    the latest mode does not run; the request is answered with all three
    records, where the latest mode would answer with one. *)
Lemma latest_flag_without_value_lists_all :
  mode_by_presence (Sample.GET [("latest", "")]) = Latest
  /\ handler (rt := Reference.runtime) (Sample.GET [("latest", "")]) Sample.abc
     <> async (run_mode (rt := Reference.runtime)
                 (mode_by_presence (Sample.GET [("latest", "")]))
                 (Sample.GET [("latest", "")])) Sample.abc
  /\ fst (handler (rt := Reference.runtime) (Sample.GET [("latest", "")]) Sample.abc)
     = Fulfilled (ok (items_value [Sample.A; Sample.B; Sample.C])).
Proof.
  split; [reflexivity |]. split; [| vm_compute; reflexivity].
  vm_compute. discriminate.
Qed.

Section ListFacts.

Context {rt : Runtime}.

Lemma most_recent_first_key (a b : Item) :
  has_timestamp a -> has_timestamp b ->
  most_recent_first a b = Int (timestamp_key b - timestamp_key a).
Proof.
  intros [x Hx] [y Hy]. unfold most_recent_first, timestamp_key.
  rewrite Hx, Hy. simpl. reflexivity.
Qed.

Lemma sorted_by_timestamp (t : list Item) :
  Forall has_timestamp t ->
  StronglySorted newer_or_same (Array_sort most_recent_first t).
Proof.
  intros H.
  apply (Array_sort_sorted most_recent_first timestamp_key has_timestamp
           most_recent_first_key t H).
Qed.

Lemma scan_then (w : World) (k : list Item -> Sync Response) :
  hd None (faults w) = None ->
  (result <- await dynamo_scan ;; k result) w
  = k (table w) (issued w Scan (table w)).
Proof.
  intros H. unfold bind, await, dynamo_scan.
  now rewrite (request_served _ _ _ H).
Qed.



End ListFacts.

(** C7. For a table of posts with pairwise distinct timestamps, a GET
    request without query parameters is answered with status 200 and all
    the records of the table, each before every record with a smaller
    timestamp. *)
Theorem get_all_is_strictly_descending
    {rt : Runtime} (event : Event) (w : World) :
  httpMethod event = "GET" ->
  (forall k, parameter event k = None) ->
  hd None (faults w) = None ->
  Forall has_timestamp (table w) ->
  NoDup (map timestamp_key (table w)) ->
  exists items,
    fst (handler event w)
    = Fulfilled {| statusCode := 200; headers := None;
                   body := JSON_stringify (items_value items) |}
    /\ Permutation items (table w)
    /\ StronglySorted newer items.
Proof.
  intros Hm Hq Hf Hts Hd.
  exists (Array_sort most_recent_first (table w)).
  rewrite (handler_GET _ _ Hm), handleGet_mode.
  unfold mode_by_value, is_given. rewrite !Hq. simpl run_mode.
  unfold async, get_all. rewrite (scan_then w _ Hf). simpl.
  split; [reflexivity |]. split; [apply Array_sort_perm |].
  apply sorted_strict.
  - eapply Permutation_NoDup; [| exact Hd].
    apply Permutation_map, Permutation_sym, Array_sort_perm.
  - now apply sorted_by_timestamp.
Qed.

Lemma get_all_is_strictly_descending_witness :
  httpMethod (mkEvent "GET" None None) = "GET"
  /\ (forall k, parameter (mkEvent "GET" None None) k = None)
  /\ hd None (faults Sample.abc) = None
  /\ Forall has_timestamp (table Sample.abc)
  /\ NoDup (map timestamp_key (table Sample.abc))
  /\ exists items,
       fst (handler (rt := Reference.runtime) (mkEvent "GET" None None) Sample.abc)
       = Fulfilled {| statusCode := 200; headers := None;
                      body := JSON_stringify (items_value items) |}
       /\ Permutation items (table Sample.abc)
       /\ StronglySorted newer items.
Proof.
  assert (H1 : forall k, parameter (mkEvent "GET" None None) k = None)
    by reflexivity.
  pose proof Sample.has_timestamps_abc as H2.
  assert (H3 : NoDup (map timestamp_key (table Sample.abc))).
  { simpl. repeat constructor; simpl; intuition discriminate. }
  repeat (split; [first [reflexivity | assumption] |]).
  exact (get_all_is_strictly_descending (rt := Reference.runtime)
           (mkEvent "GET" None None) Sample.abc eq_refl H1 eq_refl H2 H3).
Defined.

Section BeforeFacts.

Context {rt : Runtime}.



End BeforeFacts.




(** P3 of the specification, evaluated: with A (300), B (200), C (100)
    stored, [before] the id of A with [count=2] answers B then C, and an id
    that no record has is answered with status 513. *)
Example before_A_answers_B_C :
  fst (handler (rt := Reference.runtime) Sample.before_A Sample.abc)
  = Fulfilled (ok (items_value [Sample.B; Sample.C]))
  /\ fst (handler (rt := Reference.runtime)
            (Sample.GET [("before", "99")]) Sample.abc)
     = Fulfilled (error_response 513 "No item found by id 99").
Proof. split; vm_compute; reflexivity. Qed.



Section ByIdFacts.

Context {rt : Runtime}.

Lemma table_get_absent (key : Num) (t : list Item) :
  existsb (has_key key) t = false -> table_get key t = VUndefined.
Proof.
  unfold table_get. induction t as [| x r IH]; simpl; [reflexivity |].
  destruct (has_key key x); simpl; [discriminate | exact IH].
Qed.

(** A GET by an id that no record has: status 200, and as [body] the
    result of [JSON.stringify(undefined)], which is [undefined]. *)
Lemma get_by_id_absent (event : Event) (w : World) (i : string) :
  httpMethod event = "GET" ->
  mode_by_value event = ById ->
  parameter event "id" = Some i ->
  hd None (faults w) = None ->
  existsb (has_key (StringToNumber i)) (table w) = false ->
  fst (handler event w)
  = Fulfilled {| statusCode := 200; headers := None; body := VUndefined |}.
Proof.
  intros Hm Hmode Hi Hf Hk.
  rewrite (handler_GET _ _ Hm), handleGet_mode, Hmode. simpl run_mode.
  unfold async, get_by_id, bind, await, dynamo_get.
  rewrite (request_served _ _ _ Hf), param_parameter, Hi. simpl.
  now rewrite (table_get_absent _ _ Hk).
Qed.

End ByIdFacts.

(** C9. The claim: the [body] of every response is a JSON-encoded string,
    also for a GET by an id that no record has. On the code that response
    has no string as its [body]: the storage service answers without an
    item, and [JSON.stringify(undefined)] is [undefined]. A GET with [id=5]
    on a table without such a record: *)
Theorem get_by_id_of_a_missing_record_has_no_body :
  fst (handler (rt := Reference.runtime) (Sample.GET [("id", "5")]) Sample.abc)
  = Fulfilled {| statusCode := 200; headers := None; body := VUndefined |}.
Proof. vm_compute. reflexivity. Qed.

Section PatchFacts.

Context {rt : Runtime}.

Lemma add_field_object (o : Props) (k clause ph : string)
    (st : string * Props) (w : World) :
  has_own o "hasOwnProperty" = false ->
  add_field (VObj o) k clause ph st w
  = (Normal (if has_own o k
             then (fst st ++ clause, set_prop (snd st) ph (get_prop o k))
             else st), w).
Proof.
  intros H. unfold add_field, bind, lift, hasOwnProperty. rewrite H.
  destruct (has_own o k); reflexivity.
Qed.

Lemma handlePatch_object (event : Event) (w : World) (i : string) (o : Props) :
  parameter event "id" = Some i ->
  i <> EmptyString ->
  JSON_parse (body_text event) = Normal (VObj o) ->
  has_own o "hasOwnProperty" = false ->
  handlePatch event w
  = if String.eqb (fst (collected o)) "set"
    then (Fulfilled (error_response 400 "No fields to update"), w)
    else async
           (result <- await (dynamo_update (StringToNumber i)
                               (String_slice (fst (collected o)) (Int 0) (Int (-1)))
                               (snd (collected o))) ;;
            ret (ok result)) w.
Proof.
  intros Hi Hne Hp Hs. unfold handlePatch.
  rewrite truthy_param. unfold is_given. rewrite Hi.
  destruct (String.eqb_spec i EmptyString); [contradiction |]. simpl negb. cbv iota.
  rewrite param_parameter, Hi. simpl ToNumber.
  unfold async at 1, bind at 1, lift. rewrite Hp.
  unfold bind at 1. rewrite (add_field_object _ _ _ _ _ _ Hs).
  unfold bind at 1. rewrite (add_field_object _ _ _ _ _ _ Hs).
  unfold bind at 1. rewrite (add_field_object _ _ _ _ _ _ Hs).
  unfold bind at 1. rewrite (add_field_object _ _ _ _ _ _ Hs).
  fold (collected o).
  destruct (String.eqb (fst (collected o)) "set"); reflexivity.
Qed.

Lemma handlePatch_value (event : Event) (w : World) (i : string) (v : Value) :
  parameter event "id" = Some i ->
  i <> EmptyString ->
  JSON_parse (body_text event) = Normal v ->
  v <> VNull -> v <> VUndefined ->
  has_own (body_props v) "hasOwnProperty" = false ->
  handlePatch event w
  = if String.eqb (fst (collected (body_props v))) "set"
    then (Fulfilled (error_response 400 "No fields to update"), w)
    else async
           (result <- await (dynamo_update (StringToNumber i)
                               (String_slice (fst (collected (body_props v)))
                                  (Int 0) (Int (-1)))
                               (snd (collected (body_props v)))) ;;
            ret (ok result)) w.
Proof.
  intros Hi Hne Hp H1 H2 Hs.
  destruct v as [| | b | n | s | l | o]; try contradiction;
    try exact (handlePatch_object event w i o Hi Hne Hp Hs);
    unfold handlePatch; rewrite truthy_param; unfold is_given; rewrite Hi;
    (destruct (String.eqb_spec i EmptyString); [contradiction |]);
    simpl negb; cbv iota; unfold async at 1, bind at 1, lift; rewrite Hp;
    reflexivity.
Qed.

Lemma update_issued (key : Num) (expression : string) (values : Props) (w : World) :
  calls (snd (async (result <- await (dynamo_update key expression values) ;;
                     ret (ok result)) w))
  = (calls w ++ [UpdateItem key expression values])%list.
Proof.
  unfold async, bind, await, dynamo_update, request.
  destruct (hd None (faults w)); simpl; [reflexivity |].
  destruct (table_update key expression values (table w)); reflexivity.
Qed.

Lemma collected_expected (o : Props) :
  fields_present o <> [] ->
  String.eqb (fst (collected o)) "set" = false
  /\ String_slice (fst (collected o)) (Int 0) (Int (-1)) = expected_expression o
  /\ snd (collected o) = expected_values o.
Proof.
  unfold collected, expected_expression, expected_values, fields_present, patch_fields.
  simpl filter.
  destruct (has_own o "content"), (has_own o "timestamp"),
    (has_own o "votes"), (has_own o "ttl");
    intros H; try (now contradiction H); repeat split.
Qed.

Lemma collected_nothing (o : Props) :
  fields_present o = [] -> collected o = ("set", []).
Proof.
  unfold collected, fields_present, patch_fields. simpl filter.
  destruct (has_own o "content"), (has_own o "timestamp"),
    (has_own o "votes"), (has_own o "ttl"); try discriminate; reflexivity.
Qed.

End PatchFacts.

Ltac pick_clause :=
  first [ left; reflexivity
        | right; left; reflexivity
        | right; right; left; reflexivity
        | right; right; right; left; reflexivity ].

Lemma expected_update_sets_own_fields (key : Num) (o : Props) (f : string) :
  In f (map fst patch_fields) ->
  (has_own o f = true ->
   updates_field (UpdateItem key (expected_expression o) (expected_values o))
     f (get_prop o f))
  /\ (has_own o f = false ->
      forall v,
        ~ updates_field (UpdateItem key (expected_expression o) (expected_values o))
            f v).
Proof.
  unfold updates_field, expected_expression, expected_values, fields_present,
    patch_fields.
  simpl filter. simpl map at 1. simpl In.
  intros [<- | [<- | [<- | [<- | []]]]];
    destruct (has_own o "content") eqn:Hc, (has_own o "timestamp") eqn:Ht,
      (has_own o "votes") eqn:Hv, (has_own o "ttl") eqn:Hl;
    (split;
     [ intros Hown; try discriminate Hown;
       eexists; eexists;
       (split; [vm_compute; reflexivity |]);
       (split; [pick_clause |]);
       split; reflexivity
     | intros Hown v (clauses & ph & Hp & Hin & _); try discriminate Hown;
       vm_compute in Hp; try discriminate Hp;
       injection Hp as <-; simpl in Hin;
       repeat (destruct Hin as [Hin | Hin]; [discriminate Hin |]);
       exact Hin ]).
Qed.

Lemma fields_present_nil (o : Props) (f : string) :
  fields_present o = [] ->
  In f (map fst patch_fields) -> has_own o f = false.
Proof.
  unfold fields_present, patch_fields. simpl filter. simpl map. simpl In.
  intros H [<- | [<- | [<- | [<- | []]]]];
    destruct (has_own o "content"), (has_own o "timestamp"),
      (has_own o "votes"), (has_own o "ttl"); try discriminate H; reflexivity.
Qed.

(** C3. The claim, as amended: a PATCH request with a non-empty [id] whose
    body parses to a value other than [null] that has no property named
    [hasOwnProperty] of its own issues a storage update, for the key
    [Number(id)], that sets a field among [content], [timestamp], [votes],
    [ttl] if and only if the field is an own property of the body, to the
    value the body gives it, whatever that value is; when none of the four
    is an own property no request is issued. *)
Theorem patch_sets_exactly_the_own_fields
    {rt : Runtime} (event : Event) (w : World) (i : string) (v : Value) :
  httpMethod event = "PATCH" ->
  parameter event "id" = Some i ->
  i <> EmptyString ->
  JSON_parse (body_text event) = Normal v ->
  v <> VNull -> v <> VUndefined ->
  has_own (body_props v) "hasOwnProperty" = false ->
  exists issued_calls,
    calls (snd (handler event w)) = (calls w ++ issued_calls)%list
    /\ issued_calls
       = match fields_present (body_props v) with
         | [] => []
         | _ => [UpdateItem (StringToNumber i)
                   (expected_expression (body_props v))
                   (expected_values (body_props v))]
         end
    /\ forall f, In f ["content"; "timestamp"; "votes"; "ttl"] ->
         (has_own (body_props v) f = true ->
          exists c, In c issued_calls
                    /\ updates_field c f (get_prop (body_props v) f))
         /\ (has_own (body_props v) f = false ->
             forall c x, In c issued_calls -> ~ updates_field c f x).
Proof.
  intros Hm Hi Hne Hp H1 H2 Hs.
  rewrite (handler_PATCH _ _ Hm), (handlePatch_value _ _ _ _ Hi Hne Hp H1 H2 Hs).
  set (o := body_props v).
  destruct (fields_present o) as [| fp fps] eqn:Hfp.
  - exists []. rewrite (collected_nothing _ Hfp). simpl.
    split; [now rewrite app_nil_r |]. split; [reflexivity |].
    intros f Hf. split.
    + intros Hown. rewrite (fields_present_nil o f Hfp Hf) in Hown.
      discriminate Hown.
    + intros _ c x [].
  - assert (Hnil : fields_present o <> []) by (rewrite Hfp; discriminate).
    destruct (collected_expected o Hnil) as (E1 & E2 & E3).
    rewrite E1, E2, E3, update_issued.
    eexists. split; [reflexivity |]. split; [reflexivity |].
    intros f Hf.
    destruct (expected_update_sets_own_fields (StringToNumber i) o f Hf)
      as [Hyes Hno].
    split.
    + intros Hown. eexists. split; [left; reflexivity | now apply Hyes].
    + intros Hown c x [<- | []]. now apply Hno.
Qed.

Lemma patch_sets_exactly_the_own_fields_witness :
  httpMethod (Sample.PATCH "11" Sample.zero_values) = "PATCH"
  /\ parameter (Sample.PATCH "11" Sample.zero_values) "id" = Some "11"
  /\ "11" <> EmptyString
  /\ Reference.json_parse (body_text (Sample.PATCH "11" Sample.zero_values))
     = Normal (VObj Sample.zero_object)
  /\ VObj Sample.zero_object <> VNull
  /\ VObj Sample.zero_object <> VUndefined
  /\ has_own (body_props (VObj Sample.zero_object)) "hasOwnProperty" = false
  /\ exists issued_calls,
       calls (snd (handler (rt := Reference.runtime)
                     (Sample.PATCH "11" Sample.zero_values) Sample.abc))
       = (calls Sample.abc ++ issued_calls)%list
       /\ issued_calls
          = match fields_present (body_props (VObj Sample.zero_object)) with
            | [] => []
            | _ => [UpdateItem (Reference.string_to_number "11")
                      (expected_expression (body_props (VObj Sample.zero_object)))
                      (expected_values (body_props (VObj Sample.zero_object)))]
            end
       /\ forall f, In f ["content"; "timestamp"; "votes"; "ttl"] ->
            (has_own (body_props (VObj Sample.zero_object)) f = true ->
             exists c, In c issued_calls
                       /\ updates_field c f
                            (get_prop (body_props (VObj Sample.zero_object)) f))
            /\ (has_own (body_props (VObj Sample.zero_object)) f = false ->
                forall c x, In c issued_calls -> ~ updates_field c f x).
Proof.
  assert (Hne : "11" <> EmptyString) by discriminate.
  assert (Hp : Reference.json_parse
                 (body_text (Sample.PATCH "11" Sample.zero_values))
               = Normal (VObj Sample.zero_object))
    by (vm_compute; reflexivity).
  assert (H1 : VObj Sample.zero_object <> VNull) by discriminate.
  assert (H2 : VObj Sample.zero_object <> VUndefined) by discriminate.
  do 7 (split; [first [reflexivity | assumption] |]).
  exact (patch_sets_exactly_the_own_fields (rt := Reference.runtime)
           (Sample.PATCH "11" Sample.zero_values) Sample.abc "11"
           (VObj Sample.zero_object) eq_refl eq_refl Hne Hp H1 H2 eq_refl).
Defined.

(** C3, as stated, fails on two requests that have an [id] parameter. With
    the body [{"votes": 1, "hasOwnProperty": 1}] the field [votes] is an
    own property of the parsed body, and no update is issued: the presence
    test throws. With an empty [id] and the body [{"votes": 0}] the answer
    is [Missing post ID] and again no update is issued. *)
Lemma own_field_without_update :
  (Reference.json_parse (body_text Sample.shadowing)
   = Normal (VObj [("votes", VNum (Int 1)); ("hasOwnProperty", VNum (Int 1))])
   /\ has_own [("votes", VNum (Int 1)); ("hasOwnProperty", VNum (Int 1))] "votes"
      = true
   /\ parameter Sample.shadowing "id" = Some "11"
   /\ calls (snd (handler (rt := Reference.runtime) Sample.shadowing Sample.abc))
      = calls Sample.abc)
  /\ (Reference.json_parse
        (body_text (Sample.PATCH EmptyString ("{" ++ Sample.quoted "votes" ++ ": 0}")))
      = Normal (VObj [("votes", VNum (Int 0))])
      /\ parameter (Sample.PATCH EmptyString ("{" ++ Sample.quoted "votes" ++ ": 0}"))
           "id" = Some EmptyString
      /\ handler (rt := Reference.runtime)
           (Sample.PATCH EmptyString ("{" ++ Sample.quoted "votes" ++ ": 0}"))
           Sample.abc
         = (Fulfilled (error_response 400 "Missing post ID"), Sample.abc)).
Proof. repeat split; vm_compute; reflexivity. Qed.

(** The update of the sample request, written out: the three fields of the
    body, with the values 0, the empty string and false. *)
Example zero_values_are_applied :
  calls (snd (handler (rt := Reference.runtime)
                (Sample.PATCH "11" Sample.zero_values) Sample.abc))
  = [UpdateItem (Int 11) "set content = :c, votes = :v, ttl = :ttl"
       [(":c", VStr EmptyString); (":v", VNum (Int 0)); (":ttl", VBool false)]].
Proof. vm_compute. reflexivity. Qed.

(** P5 of the specification, evaluated: the body [{"votes": 0}] sets the
    votes of the record with id 11 to 0 and leaves every other field, and
    every other record, as it was. *)
Example votes_are_set_to_zero :
  table (snd (handler (rt := Reference.runtime)
                (Sample.PATCH "11" ("{" ++ Sample.quoted "votes" ++ ": 0}"))
                Sample.abc))
  = [Sample.B; Sample.C;
     [("id", VNum (Int 11)); ("content", VStr "a");
      ("timestamp", VNum (Int 300)); ("votes", VNum (Int 0));
      ("ttl", VNum (Int 1702592000))]].
Proof. vm_compute. reflexivity. Qed.

(** C4. The claim, as amended: a PATCH request with a non-empty [id] whose
    body parses to a value other than [null] that has no property named
    [hasOwnProperty] of its own and none of [content], [timestamp],
    [votes], [ttl] as an own property is answered with status 400 and the
    error [No fields to update]; no storage request is issued and the
    table, like the rest of the world, is as before. *)
Theorem patch_without_fields_is_refused
    {rt : Runtime} (event : Event) (w : World) (i : string) (v : Value) :
  httpMethod event = "PATCH" ->
  parameter event "id" = Some i ->
  i <> EmptyString ->
  JSON_parse (body_text event) = Normal v ->
  v <> VNull -> v <> VUndefined ->
  has_own (body_props v) "hasOwnProperty" = false ->
  (forall f, In f ["content"; "timestamp"; "votes"; "ttl"] ->
             has_own (body_props v) f = false) ->
  handler event w
  = (Fulfilled {| statusCode := 400; headers := None;
                  body := JSON_stringify
                            (VObj [("error", VStr "No fields to update")]) |},
     w).
Proof.
  intros Hm Hi Hne Hp H1 H2 Hs Hnone.
  rewrite (handler_PATCH _ _ Hm), (handlePatch_value _ _ _ _ Hi Hne Hp H1 H2 Hs).
  rewrite collected_nothing; [reflexivity |].
  unfold fields_present, patch_fields. simpl filter.
  rewrite !Hnone by (simpl; tauto). reflexivity.
Qed.

Lemma patch_without_fields_is_refused_witness :
  httpMethod (Sample.PATCH "11" "{}") = "PATCH"
  /\ parameter (Sample.PATCH "11" "{}") "id" = Some "11"
  /\ "11" <> EmptyString
  /\ Reference.json_parse (body_text (Sample.PATCH "11" "{}")) = Normal (VObj [])
  /\ VObj [] <> VNull
  /\ VObj [] <> VUndefined
  /\ has_own (body_props (VObj [])) "hasOwnProperty" = false
  /\ (forall f, In f ["content"; "timestamp"; "votes"; "ttl"] ->
                has_own (body_props (VObj [])) f = false)
  /\ handler (rt := Reference.runtime) (Sample.PATCH "11" "{}") Sample.abc
     = (Fulfilled {| statusCode := 400; headers := None;
                     body := JSON_stringify
                               (VObj [("error", VStr "No fields to update")]) |},
        Sample.abc).
Proof.
  assert (Hne : "11" <> EmptyString) by discriminate.
  assert (H1 : VObj [] <> VNull) by discriminate.
  assert (H2 : VObj [] <> VUndefined) by discriminate.
  assert (Hnone : forall f, In f ["content"; "timestamp"; "votes"; "ttl"] ->
                            has_own (body_props (VObj [])) f = false)
    by reflexivity.
  do 8 (split; [first [reflexivity | assumption] |]).
  exact (patch_without_fields_is_refused (rt := Reference.runtime)
           (Sample.PATCH "11" "{}") Sample.abc "11" (VObj []) eq_refl eq_refl Hne
           eq_refl H1 H2 eq_refl Hnone).
Defined.

(** C4, as stated, fails: a PATCH request with an [id] and no body has a
    parsed body, [null], with none of the four fields, and so has the body
    [{"hasOwnProperty": 1}]; neither is answered with status 400. The
    presence test throws, and the promise of the handler is rejected with
    a [TypeError]. No storage request is issued in either case. *)
Lemma patch_without_body_is_not_refused :
  (Reference.json_parse (body_text (mkEvent "PATCH" (Some [("id", "11")]) None))
   = Normal VNull
   /\ handler (rt := Reference.runtime)
        (mkEvent "PATCH" (Some [("id", "11")]) None) Sample.abc
      = (Rejected
           (TypeError "Cannot read properties of null (reading 'hasOwnProperty')"),
         Sample.abc))
  /\ (Reference.json_parse
        (body_text (Sample.PATCH "11" ("{" ++ Sample.quoted "hasOwnProperty" ++ ": 1}")))
      = Normal (VObj [("hasOwnProperty", VNum (Int 1))])
      /\ handler (rt := Reference.runtime)
           (Sample.PATCH "11" ("{" ++ Sample.quoted "hasOwnProperty" ++ ": 1}"))
           Sample.abc
         = (Rejected (TypeError "requestJSON.hasOwnProperty is not a function"),
            Sample.abc)).
Proof. repeat split; vm_compute; reflexivity. Qed.

Section PutFacts.

Context {rt : Runtime}.

Lemma member_prop (v : Value) (k : string) :
  v <> VNull -> v <> VUndefined -> member v k = Normal (prop v k).
Proof. destruct v; intros H1 H2; try reflexivity; contradiction. Qed.

(** [handlePut] up to the two storage requests. *)
Lemma handlePut_run (event : Event) (w : World) (v : Value) :
  JSON_parse (body_text event) = Normal v ->
  v <> VNull -> v <> VUndefined ->
  handlePut event w
  = async (_ <- await (dynamo_put (new_post v w)) ;;
           result <- await (dynamo_get (Int (now w))) ;;
           ret (ok result))
      (tick (after_timestamp v (tick w))).
Proof.
  intros Hp H1 H2. unfold handlePut.
  unfold async at 1, bind at 1, lift. rewrite Hp.
  unfold bind at 1, Date_now at 1.
  unfold bind at 1. rewrite (member_prop v "content" H1 H2).
  unfold bind at 1. rewrite (member_prop v "timestamp" H1 H2).
  unfold new_post, after_timestamp.
  destruct (prop v "timestamp") eqn:Ht;
    unfold bind at 1; simpl;
    unfold bind at 1; rewrite (member_prop v "votes" H1 H2);
    unfold bind at 1, Date_now at 1; reflexivity.
Qed.

Lemma table_get_put (key : Num) (it : Item) (t : list Item) :
  has_key key it = true -> table_get key (table_put key it t) = VObj it.
Proof.
  intros H. unfold table_get.
  induction t as [| x r IH]; simpl.
  - now rewrite H.
  - destruct (has_key key x) eqn:Hx; simpl.
    + now rewrite H.
    + now rewrite Hx.
Qed.

Lemma put_then_get (it : Item) (id : Z) (w : World) :
  get_prop it "id" = VNum (Int id) ->
  hd None (faults w) = None ->
  hd None (tl (faults w)) = None ->
  async (_ <- await (dynamo_put it) ;;
         result <- await (dynamo_get (Int id)) ;;
         ret (ok result)) w
  = (Fulfilled (ok (VObj it)),
     mkWorld (table_put (Int id) it (table w)) (now w) (ticks w)
       (tl (tl (faults w))) (calls w ++ [PutItem it; GetItem (Int id)])).
Proof.
  intros Hid H1 H2.
  unfold async, bind, await, dynamo_put, dynamo_get.
  rewrite (request_served _ _ _ H1), Hid. simpl fst. simpl snd. cbv iota.
  rewrite request_served by exact H2.
  simpl. rewrite table_get_put by (unfold has_key; rewrite Hid; simpl; apply Z.eqb_refl).
  unfold issued. simpl. now rewrite <- app_assoc.
Qed.

End PutFacts.

(** C5. The claim, as amended: a PUT request with body [{}] that the
    storage service serves persists a record whose [id] is the reading of
    the clock when the record is built, whose [timestamp] is the next
    reading, whose [ttl] is the reading after that in whole seconds plus
    2,592,000, with [content] the empty string and [votes] 0; it then reads
    the record back under that [id] and answers with status 200 and the
    record read. The three readings are one instant only when the clock
    does not advance between them. *)
Theorem put_of_empty_body_creates_defaults
    {rt : Runtime} (event : Event) (w : World) :
  httpMethod event = "PUT" ->
  event_body event = Some "{}" ->
  JSON_parse "{}" = Normal (VObj []) ->
  hd None (faults w) = None ->
  hd None (tl (faults w)) = None ->
  let t0 := now w in
  let t1 := t0 + hd 0 (ticks w) in
  let t2 := t1 + hd 0 (tl (ticks w)) in
  fst (handler event w)
  = Fulfilled {| statusCode := 200; headers := None;
                 body := JSON_stringify (VObj (created_from t0 t1 t2)) |}
  /\ table (snd (handler event w))
     = table_put (Int t0) (created_from t0 t1 t2) (table w)
  /\ calls (snd (handler event w))
     = (calls w ++ [PutItem (created_from t0 t1 t2); GetItem (Int t0)])%list
  /\ table_get (Int t0) (table (snd (handler event w)))
     = VObj (created_from t0 t1 t2)
  /\ (hd 0 (ticks w) = 0 -> hd 0 (tl (ticks w)) = 0 ->
      created_from t0 t1 t2 = created_at t0).
Proof.
  intros Hm Hb Hp H1 H2 t0 t1 t2.
  assert (Hparse : JSON_parse (body_text event) = Normal (VObj [])).
  { unfold body_text. rewrite Hb. exact Hp. }
  rewrite (handler_PUT _ _ Hm).
  rewrite (handlePut_run _ _ _ Hparse) by discriminate.
  change (new_post (VObj []) w) with (created_from t0 t1 t2).
  rewrite (put_then_get _ t0) by (try reflexivity; assumption).
  simpl fst. simpl snd. simpl table. simpl calls.
  repeat split.
  - apply table_get_put. reflexivity || (unfold has_key; simpl; apply Z.eqb_refl).
  - intros E1 E2. unfold created_from, created_at, t2, t1.
    rewrite E1, E2, !Z.add_0_r. reflexivity.
Qed.

Lemma put_of_empty_body_creates_defaults_witness :
  httpMethod (Sample.PUT "{}") = "PUT"
  /\ event_body (Sample.PUT "{}") = Some "{}"
  /\ Reference.json_parse "{}" = Normal (VObj [])
  /\ hd None (faults Sample.ticking) = None
  /\ hd None (tl (faults Sample.ticking)) = None
  /\ fst (handler (rt := Reference.runtime) (Sample.PUT "{}") Sample.ticking)
     = Fulfilled {| statusCode := 200; headers := None;
                    body := JSON_stringify
                              (VObj (created_from 1700000000999 1700000001000
                                       1700000001001)) |}
  /\ table (snd (handler (rt := Reference.runtime) (Sample.PUT "{}") Sample.ticking))
     = [created_from 1700000000999 1700000001000 1700000001001].
Proof.
  do 5 (split; [reflexivity |]).
  pose proof (put_of_empty_body_creates_defaults (rt := Reference.runtime)
                (Sample.PUT "{}") Sample.ticking eq_refl eq_refl eq_refl
                eq_refl eq_refl) as H.
  split; [exact (proj1 H) | exact (proj1 (proj2 H))].
Defined.

(** C5, as stated, fails: the claim takes [id], [timestamp] and [ttl] from
    one creation instant, and the code reads the clock once for each. When
    the clock advances between the readings, here from 1700000000999 by a
    millisecond each time, the record persisted for the body [{}] has an
    [id] and a [timestamp] that differ, and is the record of no instant. *)
Lemma put_reads_the_clock_three_times :
  ~ exists instant,
      table (snd (handler (rt := Reference.runtime) (Sample.PUT "{}")
                    Sample.ticking))
      = [created_at instant].
Proof.
  intros [instant H].
  assert (E : table (snd (handler (rt := Reference.runtime) (Sample.PUT "{}")
                            Sample.ticking))
              = [created_from 1700000000999 1700000001000 1700000001001])
    by (vm_compute; reflexivity).
  rewrite E in H. unfold created_from, created_at in H.
  injection H as H0 H1 _. lia.
Qed.

Section FrameFacts.

Context {rt : Runtime}.

Lemma table_put_in (key : Num) (item it : Item) (t : list Item) :
  In it (table_put key item t) -> it = item \/ In it t.
Proof.
  induction t as [| x r IH]; simpl.
  - intros [<- | []]. now left.
  - destruct (has_key key x); simpl.
    + intros [<- | H]; auto.
    + intros [<- | H]; auto. destruct (IH H); auto.
Qed.

Lemma table_put_has (key : Num) (item : Item) (t : list Item) :
  In item (table_put key item t).
Proof.
  induction t as [| x r IH]; simpl; auto.
  destruct (has_key key x); simpl; auto.
Qed.

Lemma after_timestamp_same (v : Value) (w : World) :
  table (after_timestamp v w) = table w
  /\ calls (after_timestamp v w) = calls w
  /\ faults (after_timestamp v w) = faults w
  /\ (now (after_timestamp v w) = now w
      \/ now (after_timestamp v w) = now w + hd 0 (ticks w)).
Proof.
  unfold after_timestamp. destruct (prop v "timestamp"); simpl; auto.
Qed.

(** The two storage requests of a PUT, whatever the service answers. *)
Lemma put_requests (item : Item) (id : Z) (w : World) :
  get_prop item "id" = VNum (Int id) ->
  let w' := snd (async (_ <- await (dynamo_put item) ;;
                        result <- await (dynamo_get (Int id)) ;;
                        ret (ok result)) w) in
  (exists rest, calls w' = (calls w ++ PutItem item :: rest)%list)
  /\ (hd None (faults w) = None -> In item (table w'))
  /\ (forall it, In it (table w') -> it = item \/ In it (table w)).
Proof.
  intros Hid. unfold async, bind, await, dynamo_put, dynamo_get, request.
  rewrite Hid.
  destruct (hd None (faults w)) as [e |] eqn:H1; simpl.
  - split; [exists []; reflexivity |]. split; [discriminate | auto].
  - destruct (hd None (tl (faults w))) as [e |]; simpl.
    + split; [exists [GetItem (Int id)]; now rewrite <- app_assoc |].
      split; [intros _; apply table_put_has | intros it; apply table_put_in].
    + split; [exists [GetItem (Int id)]; now rewrite <- app_assoc |].
      split; [intros _; apply table_put_has | intros it; apply table_put_in].
Qed.

Lemma handleGet_table (event : Event) (w : World) :
  table (snd (handleGet event w)) = table w.
Proof.
  rewrite handleGet_mode.
  destruct (mode_by_value event); simpl run_mode;
    unfold async, get_latest, get_before, get_by_id, get_all, bind, await,
      dynamo_scan, dynamo_get, request;
    destruct (hd None (faults w)); simpl; try reflexivity.
  match goal with |- context [if ?c then _ else _] => destruct c end;
    reflexivity.
Qed.

Lemma handleDelete_table (event : Event) (w : World) (it : Item) :
  In it (table (snd (handleDelete event w))) -> In it (table w).
Proof.
  unfold handleDelete, async, bind, await, dynamo_delete, request.
  destruct (ToBoolean (param event "id")); simpl; auto.
  destruct (hd None (faults w)); simpl; auto.
  unfold table_delete. rewrite filter_In. tauto.
Qed.

Lemma handlePut_table (event : Event) (w : World) (it : Item) :
  In it (table (snd (handlePut event w))) ->
  In it (table w)
  \/ (get_prop it "id" = VNum (Int (now w))
      /\ exists s,
           (s = now w + hd 0 (ticks w)
            \/ s = now w + hd 0 (ticks w) + hd 0 (tl (ticks w)))
           /\ get_prop it "ttl" = VNum (Int (s / 1000 + 2592000))).
Proof.
  destruct (JSON_parse (body_text event)) as [v | e] eqn:Hp.
  - assert (Hv : v = VNull \/ v = VUndefined \/ (v <> VNull /\ v <> VUndefined))
      by (destruct v; auto; right; right; split; discriminate).
    destruct Hv as [-> | [-> | [H1 H2]]].
    + unfold handlePut, async, bind, lift. rewrite Hp. simpl. auto.
    + unfold handlePut, async, bind, lift. rewrite Hp. simpl. auto.
    + rewrite (handlePut_run _ _ _ Hp H1 H2).
      destruct (put_requests (new_post v w) (now w)
                  (tick (after_timestamp v (tick w))) eq_refl) as (_ & _ & H).
      intros Hin. destruct (H it Hin) as [-> | Hold].
      * right. split; [reflexivity |].
        exists (now (after_timestamp v (tick w))).
        split; [| reflexivity].
        destruct (after_timestamp_same v (tick w)) as (_ & _ & _ & Es).
        simpl in Es. exact Es.
      * left. simpl in Hold.
        now rewrite (proj1 (after_timestamp_same v (tick w))) in Hold.
  - unfold handlePut, async, bind, lift. rewrite Hp. simpl. auto.
Qed.

End FrameFacts.

Lemma handler_frame {rt : Runtime} (other : Event) (w : World) :
  httpMethod other <> "PATCH" ->
  forall it, In it (table (snd (handler other w))) ->
  In it (table w)
  \/ (httpMethod other = "PUT"
      /\ get_prop it "id" = VNum (Int (now w))
      /\ exists s,
           (s = now w + hd 0 (ticks w)
            \/ s = now w + hd 0 (ticks w) + hd 0 (tl (ticks w)))
           /\ get_prop it "ttl" = VNum (Int (s / 1000 + 2592000))).
Proof.
  intros Hn it.
  destruct (String.eqb_spec (httpMethod other) "GET") as [Hg | Hg].
  { rewrite (handler_GET _ _ Hg), handleGet_table. auto. }
  destruct (String.eqb_spec (httpMethod other) "PUT") as [Hp | Hp].
  { rewrite (handler_PUT _ _ Hp). intros H.
    destruct (handlePut_table _ _ _ H) as [Hold | Hnew]; auto. }
  destruct (String.eqb_spec (httpMethod other) "DELETE") as [Hd | Hd].
  { rewrite (handler_DELETE _ _ Hd). intros H. left.
    now apply (handleDelete_table other). }
  destruct (String.eqb_spec (httpMethod other) "OPTIONS") as [Ho | Ho].
  { rewrite (handler_OPTIONS _ _ Ho). simpl. auto. }
  unfold handler, async_returning, try_catch.
  apply String.eqb_neq in Hg, Hp, Hd, Ho, Hn.
  rewrite Hg, Hp, Hd, Ho, Hn. simpl. auto.
Qed.

(** C6. The claim, as amended: for every PUT request whose body parses to
    a value other than [null], whether or not that value has a [ttl], the
    record sent to the storage service has as [ttl] the reading of the
    clock taken for it, in whole seconds, plus 2,592,000 (30 days); when
    the service serves the request the record is in the table. Afterwards
    a stored record, and so its [ttl], is changed by a PATCH, or replaced
    by a PUT whose first reading of the clock is the [id] of the record:
    each record in the table after a request other than a PATCH was in the
    table before it, or is the record of a PUT, under the reading of the
    clock at its start as [id], with a [ttl] from the clock. *)
Theorem put_takes_ttl_from_the_clock
    {rt : Runtime} (event : Event) (w : World) (v : Value) :
  httpMethod event = "PUT" ->
  JSON_parse (body_text event) = Normal v ->
  v <> VNull -> v <> VUndefined ->
  (exists item rest s,
     calls (snd (handler event w)) = (calls w ++ PutItem item :: rest)%list
     /\ (s = now w + hd 0 (ticks w)
         \/ s = now w + hd 0 (ticks w) + hd 0 (tl (ticks w)))
     /\ get_prop item "ttl" = VNum (Int (s / 1000 + 60 * 60 * 24 * 30))
     /\ (hd None (faults w) = None -> In item (table (snd (handler event w)))))
  /\ forall (other : Event) (w' : World),
       httpMethod other <> "PATCH" ->
       forall it, In it (table (snd (handler other w'))) ->
         In it (table w')
         \/ (httpMethod other = "PUT"
             /\ get_prop it "id" = VNum (Int (now w'))
             /\ exists s,
                  (s = now w' + hd 0 (ticks w')
                   \/ s = now w' + hd 0 (ticks w') + hd 0 (tl (ticks w')))
                  /\ get_prop it "ttl" = VNum (Int (s / 1000 + 2592000))).
Proof.
  intros Hm Hp H1 H2. split; [| intros other w'; apply handler_frame].
  rewrite (handler_PUT _ _ Hm), (handlePut_run _ _ _ Hp H1 H2).
  destruct (put_requests (new_post v w) (now w)
              (tick (after_timestamp v (tick w))) eq_refl) as ([rest Hc] & Hin & _).
  destruct (after_timestamp_same v (tick w)) as (_ & Ec & Ef & Es).
  exists (new_post v w), rest, (now (after_timestamp v (tick w))).
  split; [| split; [| split]].
  - rewrite Hc. simpl. now rewrite Ec.
  - simpl in Es. exact Es.
  - reflexivity.
  - intros Hf. apply Hin. simpl. now rewrite Ef.
Qed.

Lemma put_takes_ttl_from_the_clock_witness :
  httpMethod (Sample.PUT Sample.with_ttl) = "PUT"
  /\ Reference.json_parse (body_text (Sample.PUT Sample.with_ttl))
     = Normal (VObj Sample.with_ttl_object)
  /\ VObj Sample.with_ttl_object <> VNull
  /\ VObj Sample.with_ttl_object <> VUndefined
  /\ exists item rest s,
       calls (snd (handler (rt := Reference.runtime)
                     (Sample.PUT Sample.with_ttl) Sample.ticking))
       = (calls Sample.ticking ++ PutItem item :: rest)%list
       /\ (s = now Sample.ticking + hd 0 (ticks Sample.ticking)
           \/ s = now Sample.ticking + hd 0 (ticks Sample.ticking)
                  + hd 0 (tl (ticks Sample.ticking)))
       /\ get_prop item "ttl" = VNum (Int (s / 1000 + 60 * 60 * 24 * 30))
       /\ (hd None (faults Sample.ticking) = None ->
           In item (table (snd (handler (rt := Reference.runtime)
                                  (Sample.PUT Sample.with_ttl) Sample.ticking)))).
Proof.
  assert (Hp : Reference.json_parse (body_text (Sample.PUT Sample.with_ttl))
               = Normal (VObj Sample.with_ttl_object))
    by (vm_compute; reflexivity).
  assert (H1 : VObj Sample.with_ttl_object <> VNull) by discriminate.
  assert (H2 : VObj Sample.with_ttl_object <> VUndefined) by discriminate.
  do 4 (split; [first [reflexivity | assumption] |]).
  exact (proj1 (put_takes_ttl_from_the_clock (rt := Reference.runtime)
                  (Sample.PUT Sample.with_ttl) Sample.ticking
                  (VObj Sample.with_ttl_object) eq_refl Hp H1 H2)).
Defined.

(** C6, as stated, fails in its second half: the [ttl] of a stored record
    changes without a PATCH when a PUT reads the clock at the [id] of that
    record. The record under 1700000000999 has the [ttl] 1702592000; after
    a PUT that begins at that millisecond the record under that [id] is
    the new one, with the [ttl] 1702592001, and the storage service was
    sent a put and a get, no update. *)
Lemma put_at_a_stored_id_replaces_the_ttl :
  httpMethod (Sample.PUT "{}") <> "PATCH"
  /\ prop (table_get (Int 1700000000999) (table Sample.colliding)) "ttl"
     = VNum (Int 1702592000)
  /\ prop (table_get (Int 1700000000999)
             (table (snd (handler (rt := Reference.runtime) (Sample.PUT "{}")
                            Sample.colliding)))) "ttl"
     = VNum (Int 1702592001)
  /\ calls (snd (handler (rt := Reference.runtime) (Sample.PUT "{}")
                   Sample.colliding))
     = [PutItem (created_from 1700000000999 1700000001000 1700000001001);
        GetItem (Int 1700000000999)].
Proof.
  split; [discriminate |]. repeat split; vm_compute; reflexivity.
Qed.

(** The [ttl] of the body is not the one stored: the body asks for 5, the
    record has the clock's 1700000001 seconds plus 30 days. *)
Example ttl_of_the_body_is_ignored :
  table (snd (handler (rt := Reference.runtime) (Sample.PUT Sample.with_ttl)
                Sample.ticking))
  = [[("id", VNum (Int 1700000000999)); ("content", VStr "hi");
      ("timestamp", VNum (Int 1700000001000)); ("votes", VNum (Int 0));
      ("ttl", VNum (Int 1702592001))]].
Proof. vm_compute. reflexivity. Qed.

(** * Further properties of the handler *)

Section SliceFacts.

Context {A : Type}.
Local Open Scope list_scope.



Lemma existsb_filter_out (p : A -> bool) (l : list A) :
  existsb p (filter (fun x => negb (p x)) l) = false.
Proof.
  induction l as [| x r IH]; simpl; [reflexivity |].
  destruct (p x) eqn:Hx; simpl; [exact IH | now rewrite Hx].
Qed.

End SliceFacts.

Section LatestFacts.

Context {rt : Runtime}.



End LatestFacts.



(** P2 of the specification, evaluated: the two newest of A, B, C. *)
Example latest_two_are_A_B :
  fst (handler (rt := Reference.runtime)
         (Sample.GET [("latest", "1"); ("count", "2")]) Sample.abc)
  = Fulfilled (ok (items_value [Sample.A; Sample.B])).
Proof. vm_compute. reflexivity. Qed.



(** A negative count, evaluated: of A, B, C the oldest is left out, and of a
    table with one record nothing is left. *)
Example latest_minus_one :
  fst (handler (rt := Reference.runtime)
         (Sample.GET [("latest", "1"); ("count", "-1")]) Sample.abc)
  = Fulfilled (ok (items_value [Sample.A; Sample.B]))
  /\ fst (handler (rt := Reference.runtime)
            (Sample.GET [("latest", "1"); ("count", "-1")]) Sample.colliding)
     = Fulfilled (ok (items_value [])).
Proof. split; vm_compute; reflexivity. Qed.

Section DeleteFacts.

Context {rt : Runtime}.

Lemma handleDelete_with_id (event : Event) (w : World) (i : string) :
  parameter event "id" = Some i ->
  i <> EmptyString ->
  handleDelete event w
  = async (_ <- await (dynamo_delete (StringToNumber i)) ;; ret (ok success)) w.
Proof.
  intros Hi Hne. unfold handleDelete.
  rewrite truthy_param. unfold is_given. rewrite Hi.
  destruct (String.eqb_spec i EmptyString); [contradiction |].
  simpl negb. cbv iota. now rewrite param_parameter, Hi.
Qed.

Lemma handleDelete_without_id (event : Event) (w : World) :
  is_given event "id" = false ->
  handleDelete event w = (Fulfilled (error_response 400 "Missing post ID"), w).
Proof. intros H. unfold handleDelete. now rewrite truthy_param, H. Qed.

Lemma handlePatch_without_id (event : Event) (w : World) :
  is_given event "id" = false ->
  handlePatch event w = (Fulfilled (error_response 400 "Missing post ID"), w).
Proof. intros H. unfold handlePatch. now rewrite truthy_param, H. Qed.

End DeleteFacts.

(** X3. A DELETE request with a non-empty [id] that the storage service
    serves issues one delete for the key [Number(id)] and is answered with
    status 200 and [{success: true}] whether or not a record had that id.
    Afterwards no record of the table has the id, and every other record
    is still there. *)
Theorem delete_answers_success_present_or_not
    {rt : Runtime} (event : Event) (w : World) (i : string) :
  httpMethod event = "DELETE" ->
  parameter event "id" = Some i ->
  i <> EmptyString ->
  hd None (faults w) = None ->
  fst (handler event w)
  = Fulfilled {| statusCode := 200; headers := None;
                 body := JSON_stringify (VObj [("success", VBool true)]) |}
  /\ calls (snd (handler event w))
     = (calls w ++ [DeleteItem (StringToNumber i)])%list
  /\ existsb (has_key (StringToNumber i)) (table (snd (handler event w))) = false
  /\ forall it, has_key (StringToNumber i) it = false ->
       (In it (table (snd (handler event w))) <-> In it (table w)).
Proof.
  intros Hm Hi Hne Hf.
  rewrite (handler_DELETE _ _ Hm), (handleDelete_with_id _ _ _ Hi Hne).
  unfold async, bind, await, dynamo_delete.
  rewrite (request_served _ _ _ Hf). simpl.
  split; [reflexivity |]. split; [reflexivity |].
  split; [apply existsb_filter_out |].
  intros it Hk. unfold table_delete. rewrite filter_In, Hk. simpl. tauto.
Qed.

Lemma delete_answers_success_present_or_not_witness :
  httpMethod (Sample.DELETE [("id", "99")]) = "DELETE"
  /\ parameter (Sample.DELETE [("id", "99")]) "id" = Some "99"
  /\ "99" <> EmptyString
  /\ hd None (faults Sample.abc) = None
  /\ fst (handler (rt := Reference.runtime) (Sample.DELETE [("id", "99")]) Sample.abc)
     = Fulfilled {| statusCode := 200; headers := None;
                    body := JSON_stringify (VObj [("success", VBool true)]) |}.
Proof.
  assert (Hne : "99" <> EmptyString) by discriminate.
  do 4 (split; [first [reflexivity | assumption] |]).
  exact (proj1 (delete_answers_success_present_or_not (rt := Reference.runtime)
                  (Sample.DELETE [("id", "99")]) Sample.abc "99"
                  eq_refl eq_refl Hne eq_refl)).
Defined.

(** X4. A DELETE or PATCH request without an [id] value (no query
    parameters, no [id], or an empty one) is answered with status 400 and
    [Missing post ID]; nothing is sent to the storage service, and the body
    of a PATCH is not even parsed, so this is the answer also when the body
    is not JSON. *)
Theorem missing_id_is_refused_before_anything_else
    {rt : Runtime} (event : Event) (w : World) :
  httpMethod event = "DELETE" \/ httpMethod event = "PATCH" ->
  is_given event "id" = false ->
  handler event w
  = (Fulfilled {| statusCode := 400; headers := None;
                  body := JSON_stringify (VObj [("error", VStr "Missing post ID")]) |},
     w).
Proof.
  intros [Hm | Hm] Hi.
  - rewrite (handler_DELETE _ _ Hm). now apply handleDelete_without_id.
  - rewrite (handler_PATCH _ _ Hm). now apply handlePatch_without_id.
Qed.

Lemma missing_id_is_refused_before_anything_else_witness :
  (httpMethod (mkEvent "PATCH" (Some [("id", "")]) (Some "not JSON")) = "DELETE"
   \/ httpMethod (mkEvent "PATCH" (Some [("id", "")]) (Some "not JSON")) = "PATCH")
  /\ is_given (mkEvent "PATCH" (Some [("id", "")]) (Some "not JSON")) "id" = false
  /\ handler (rt := Reference.runtime)
       (mkEvent "PATCH" (Some [("id", "")]) (Some "not JSON")) Sample.abc
     = (Fulfilled {| statusCode := 400; headers := None;
                     body := JSON_stringify
                               (VObj [("error", VStr "Missing post ID")]) |},
        Sample.abc).
Proof.
  split; [right; reflexivity |]. split; [reflexivity |].
  exact (missing_id_is_refused_before_anything_else (rt := Reference.runtime)
           (mkEvent "PATCH" (Some [("id", "")]) (Some "not JSON")) Sample.abc
           (or_intror eq_refl) eq_refl).
Defined.

(** X5. An OPTIONS request is always answered with status 200, the two
    CORS headers and [{success: true}], whatever its query parameters and
    body are; the world is left as it was. *)
Theorem options_is_fixed
    {rt : Runtime} (event : Event) (w : World) :
  httpMethod event = "OPTIONS" ->
  handler event w
  = (Fulfilled
       {| statusCode := 200;
          headers := Some [("Access-Control-Allow-Origin", "*");
                           ("Access-Control-Allow-Methods",
                            "GET,PUT,PATCH,DELETE,OPTIONS")];
          body := JSON_stringify (VObj [("success", VBool true)]) |},
     w).
Proof. intros Hm. now rewrite (handler_OPTIONS _ _ Hm). Qed.

Lemma options_is_fixed_witness :
  httpMethod Sample.OPTIONS = "OPTIONS"
  /\ handler (rt := Reference.runtime) Sample.OPTIONS Sample.down
     = (Fulfilled
          {| statusCode := 200;
             headers := Some [("Access-Control-Allow-Origin", "*");
                              ("Access-Control-Allow-Methods",
                               "GET,PUT,PATCH,DELETE,OPTIONS")];
             body := JSON_stringify (VObj [("success", VBool true)]) |},
        Sample.down).
Proof.
  split; [reflexivity |].
  exact (options_is_fixed (rt := Reference.runtime) Sample.OPTIONS Sample.down
           eq_refl).
Defined.

(** X6. A method other than GET, PUT, PATCH, DELETE and OPTIONS (the
    comparison is exact, so also [get] in lower case) is answered with
    status 400 and a body that names the method and echoes the event;
    the world is left as it was. *)
Theorem unsupported_method_is_echoed
    {rt : Runtime} (event : Event) (w : World) :
  ~ In (httpMethod event) ["GET"; "PUT"; "PATCH"; "DELETE"; "OPTIONS"] ->
  handler event w
  = (Fulfilled
       {| statusCode := 400; headers := None;
          body := JSON_stringify
                    (VObj [("error",
                            VStr ("Unsupported method " ++ httpMethod event));
                           ("event", event_value event)]) |},
     w).
Proof.
  intros Hn. unfold handler, async_returning, try_catch.
  assert (E : forall m, In m ["GET"; "PUT"; "PATCH"; "DELETE"; "OPTIONS"] ->
                        String.eqb (httpMethod event) m = false).
  { intros m Hin. apply String.eqb_neq. intros Heq. apply Hn.
    rewrite Heq. exact Hin. }
  rewrite !E by (simpl; tauto). reflexivity.
Qed.

Lemma unsupported_method_is_echoed_witness :
  ~ In (httpMethod (mkEvent "get" None None))
      ["GET"; "PUT"; "PATCH"; "DELETE"; "OPTIONS"]
  /\ handler (rt := Reference.runtime) (mkEvent "get" None None) Sample.abc
     = (Fulfilled
          {| statusCode := 400; headers := None;
             body := JSON_stringify
                       (VObj [("error", VStr ("Unsupported method " ++ "get"));
                              ("event", event_value (mkEvent "get" None None))]) |},
        Sample.abc).
Proof.
  assert (Hn : ~ In (httpMethod (mkEvent "get" None None))
                 ["GET"; "PUT"; "PATCH"; "DELETE"; "OPTIONS"]).
  { simpl. intros [H | [H | [H | [H | [H | []]]]]]; discriminate H. }
  split; [exact Hn |].
  exact (unsupported_method_is_echoed (rt := Reference.runtime)
           (mkEvent "get" None None) Sample.abc Hn).
Defined.

Section Outcomes.

Context {rt : Runtime}.

(** The four ways a PATCH ends before or at its one storage request. *)
Lemma handlePatch_outcome (event : Event) (w : World) :
  handlePatch event w = (Fulfilled (error_response 400 "Missing post ID"), w)
  \/ (exists e, handlePatch event w = (Rejected e, w))
  \/ handlePatch event w
     = (Fulfilled (error_response 400 "No fields to update"), w)
  \/ exists key expression values,
       handlePatch event w
       = async (result <- await (dynamo_update key expression values) ;;
                ret (ok result)) w.
Proof.
  unfold handlePatch.
  destruct (ToBoolean (param event "id")); [| now left].
  unfold async at 1, bind at 1, lift.
  destruct (JSON_parse (body_text event)) as [v | e];
    [| right; left; eexists; reflexivity].
  destruct v as [| | b | n | s | l | o];
    try (right; left; eexists; reflexivity);
    try (right; right; left; reflexivity).
  unfold add_field, bind, lift, hasOwnProperty, member.
  destruct (has_own o "hasOwnProperty");
    [right; left; eexists; reflexivity |].
  destruct (has_own o "content"), (has_own o "timestamp"),
    (has_own o "votes"), (has_own o "ttl");
    first [ right; right; left; reflexivity
          | right; right; right; do 3 eexists; reflexivity ].
Qed.

(** The ways a PUT ends before its first storage request, when it does. *)
Lemma handlePut_outcome (event : Event) (w : World) :
  (exists e w', handlePut event w = (Rejected e, w')
                /\ table w' = table w /\ calls w' = calls w)
  \/ exists v, JSON_parse (body_text event) = Normal v
               /\ v <> VNull /\ v <> VUndefined.
Proof.
  destruct (JSON_parse (body_text event)) as [v | e] eqn:Hp.
  - destruct v;
      try (right; eexists; split; [reflexivity | split; discriminate]);
      left; unfold handlePut, async, bind, lift; rewrite Hp; simpl;
      do 2 eexists; split; reflexivity || (split; reflexivity).
  - left. unfold handlePut, async, bind, lift. rewrite Hp.
    do 2 eexists. split; [reflexivity | split; reflexivity].
Qed.

Lemma update_outcome (key : Num) (expression : string) (values : Props)
    (w : World) :
  let run := async (result <- await (dynamo_update key expression values) ;;
                    ret (ok result)) w in
  calls (snd run) = (calls w ++ [UpdateItem key expression values])%list
  /\ (forall e, hd None (faults w) = Some e -> fst run = Rejected e)
  /\ (forall r, fst run = Fulfilled r ->
        statusCode r = 200 /\ headers r = None /\ exists s, body r = VStr s).
Proof.
  unfold async, bind, await, dynamo_update, request.
  destruct (hd None (faults w)) as [e |]; simpl.
  - split; [reflexivity |]. split; [intros e' H; now inversion H | discriminate].
  - destruct (table_update key expression values (table w)); simpl;
      (split; [reflexivity |]); (split; [discriminate |]);
      intros r H; inversion H; subst; simpl; eauto.
Qed.

Lemma put_outcome (item : Item) (id : Z) (w : World) :
  get_prop item "id" = VNum (Int id) ->
  let run := async (_ <- await (dynamo_put item) ;;
                    result <- await (dynamo_get (Int id)) ;;
                    ret (ok result)) w in
  (forall e, hd None (faults w) = Some e ->
     fst run = Rejected e /\ calls (snd run) = (calls w ++ [PutItem item])%list)
  /\ (forall e, hd None (faults w) = None -> hd None (tl (faults w)) = Some e ->
        fst run = Rejected e
        /\ calls (snd run) = (calls w ++ [PutItem item; GetItem (Int id)])%list
        /\ In item (table (snd run)))
  /\ (forall r, fst run = Fulfilled r ->
        statusCode r = 200 /\ headers r = None /\ exists s, body r = VStr s).
Proof.
  intros Hid. unfold async, bind, await, dynamo_put, dynamo_get, request.
  rewrite Hid.
  destruct (hd None (faults w)) as [e |]; simpl.
  - split; [intros e' H; inversion H; auto |].
    split; [discriminate | discriminate].
  - split; [discriminate |].
    destruct (hd None (tl (faults w))) as [e |]; simpl.
    + split; [| discriminate].
      intros e' _ H. inversion H; subst. split; [reflexivity |].
      split; [now rewrite <- app_assoc | apply table_put_has].
    + split; [discriminate |].
      intros r H. inversion H; subst; simpl.
      rewrite table_get_put
        by (unfold has_key; rewrite Hid; simpl; apply Z.eqb_refl).
      simpl. eauto.
Qed.

End Outcomes.

Section Shapes.

Context {rt : Runtime}.

Lemma stringify_defined (v : Value) :
  v <> VUndefined -> exists s, JSON_stringify v = VStr s.
Proof. destruct v; intros H; try contradiction; simpl; eauto. Qed.

Lemma stringify_items (l : list Item) :
  exists s, JSON_stringify (items_value l) = VStr s.
Proof. simpl. eauto. Qed.

(** What a GET does to the world and what it can answer. *)
Lemma handleGet_run (event : Event) (w : World) :
  exists c,
    (c = Scan \/ c = GetItem (ToNumber (param event "id")))
    /\ snd (handleGet event w) = issued w c (table w)
    /\ (forall e, hd None (faults w) = Some e ->
          fst (handleGet event w) = Rejected e)
    /\ (forall r, fst (handleGet event w) = Fulfilled r ->
          headers r = None
          /\ (statusCode r = 200 /\ (exists s, body r = VStr s)
              \/ statusCode r = 200 /\ body r = VUndefined
                 /\ mode_by_value event = ById
                 /\ table_get (ToNumber (param event "id")) (table w) = VUndefined
              \/ statusCode r = 513 /\ (exists s, body r = VStr s)
                 /\ mode_by_value event = Before)).
Proof.
  rewrite handleGet_mode.
  destruct (mode_by_value event) eqn:Hmode; simpl run_mode;
    unfold async, get_latest, get_before, get_by_id, get_all, bind, await,
      dynamo_scan, dynamo_get, request;
    destruct (hd None (faults w)) as [e |]; simpl.
  - exists Scan. split; [now left |].
    split; [reflexivity |]. split; [intros e' H; now inversion H | discriminate].
  - exists Scan. split; [now left |].
    split; [reflexivity |]. split; [discriminate |].
    intros r H. inversion H; subst; simpl. split; [reflexivity |].
    left. split; [reflexivity | eauto].
  - exists Scan. split; [now left |].
    split; [reflexivity |]. split; [intros e' H; now inversion H | discriminate].
  - exists Scan. split; [now left |].
    match goal with |- context [if ?c then _ else _] => destruct c end; simpl;
      (split; [reflexivity |]); (split; [discriminate |]);
      intros r H; inversion H; subst; simpl; (split; [reflexivity |]).
    + right. right. split; [reflexivity |]. split; [eauto | reflexivity].
    + left. split; [reflexivity | eauto].
  - exists (GetItem (ToNumber (param event "id"))). split; [now right |].
    split; [reflexivity |]. split; [intros e' H; now inversion H | discriminate].
  - exists (GetItem (ToNumber (param event "id"))). split; [now right |].
    split; [reflexivity |]. split; [discriminate |].
    intros r H. inversion H; subst; simpl. split; [reflexivity |].
    destruct (table_get (ToNumber (param event "id")) (table w)) eqn:Hg;
      try solve [left; split; [reflexivity | simpl; eauto]].
    right. left. auto.
  - exists Scan. split; [now left |].
    split; [reflexivity |]. split; [intros e' H; now inversion H | discriminate].
  - exists Scan. split; [now left |].
    split; [reflexivity |]. split; [discriminate |].
    intros r H. inversion H; subst; simpl. split; [reflexivity |].
    left. split; [reflexivity | eauto].
Qed.

Lemma handleDelete_run (event : Event) (w : World) :
  handleDelete event w = (Fulfilled (error_response 400 "Missing post ID"), w)
  \/ exists key,
       snd (handleDelete event w)
       = issued w (DeleteItem key)
           (match hd None (faults w) with
            | Some _ => table w
            | None => table_delete key (table w)
            end)
       /\ (forall e, hd None (faults w) = Some e ->
             fst (handleDelete event w) = Rejected e)
       /\ (forall r, fst (handleDelete event w) = Fulfilled r -> r = ok success).
Proof.
  unfold handleDelete.
  destruct (ToBoolean (param event "id")); [| now left].
  right. exists (ToNumber (param event "id")).
  unfold async, bind, await, dynamo_delete, request.
  destruct (hd None (faults w)) as [e |]; simpl.
  - split; [reflexivity |]. split; [intros e' H; now inversion H | discriminate].
  - split; [reflexivity |]. split; [discriminate |].
    intros r H. now inversion H.
Qed.

(** Every response the handler can give. *)
Lemma handler_fulfilled_shape (event : Event) (w : World) (r : Response) :
  fst (handler event w) = Fulfilled r ->
  (httpMethod event = "OPTIONS" /\ statusCode r = 200
   /\ headers r = Some [("Access-Control-Allow-Origin", "*");
                        ("Access-Control-Allow-Methods",
                         "GET,PUT,PATCH,DELETE,OPTIONS")]
   /\ exists s, body r = VStr s)
  \/ (httpMethod event <> "OPTIONS" /\ headers r = None
      /\ (statusCode r = 200 /\ (exists s, body r = VStr s)
          \/ statusCode r = 200 /\ body r = VUndefined
             /\ httpMethod event = "GET" /\ mode_by_value event = ById
             /\ table_get (ToNumber (param event "id")) (table w) = VUndefined
          \/ statusCode r = 400 /\ (exists s, body r = VStr s)
             /\ httpMethod event <> "GET" /\ httpMethod event <> "PUT"
          \/ statusCode r = 513 /\ (exists s, body r = VStr s)
             /\ httpMethod event = "GET" /\ mode_by_value event = Before)).
Proof.
  destruct (String.eqb_spec (httpMethod event) "GET") as [Hg | Hg].
  { rewrite (handler_GET _ _ Hg). intros H. right.
    split; [rewrite Hg; discriminate |].
    destruct (handleGet_run event w) as (c & _ & _ & _ & Hr).
    destruct (Hr r H) as (Hh & [(Hc & Hs) | [(Hc & Hb & Hm & Ht) | (Hc & Hs & Hm)]]);
      split; auto.
    - right. left. auto.
    - right. right. right. auto. }
  destruct (String.eqb_spec (httpMethod event) "PUT") as [Hp | Hp].
  { rewrite (handler_PUT _ _ Hp). intros H. right.
    split; [rewrite Hp; discriminate |].
    destruct (handlePut_outcome event w) as [(e & w' & E & _) | (v & Hv & H1 & H2)].
    - rewrite E in H. discriminate H.
    - rewrite (handlePut_run _ _ _ Hv H1 H2) in H.
      destruct (put_outcome (new_post v w) (now w)
                  (tick (after_timestamp v (tick w))) eq_refl) as (_ & _ & Hr).
      destruct (Hr r H) as (Hc & Hh & Hs). auto. }
  destruct (String.eqb_spec (httpMethod event) "PATCH") as [Ha | Ha].
  { rewrite (handler_PATCH _ _ Ha). intros H. right.
    split; [rewrite Ha; discriminate |].
    destruct (handlePatch_outcome event w)
      as [E | [(e & E) | [E | (k & x & vs & E)]]]; rewrite E in H.
    - inversion H; subst; simpl. split; [reflexivity |].
      right. right. left. split; [reflexivity |]. split; [eauto | auto].
    - discriminate H.
    - inversion H; subst; simpl. split; [reflexivity |].
      right. right. left. split; [reflexivity |]. split; [eauto | auto].
    - destruct (update_outcome k x vs w) as (_ & _ & Hr).
      destruct (Hr r H) as (Hc & Hh & Hs). auto. }
  destruct (String.eqb_spec (httpMethod event) "DELETE") as [Hd | Hd].
  { rewrite (handler_DELETE _ _ Hd). intros H. right.
    split; [rewrite Hd; discriminate |].
    destruct (handleDelete_run event w) as [E | (k & _ & _ & Hr)].
    - rewrite E in H. inversion H; subst; simpl. split; [reflexivity |].
      right. right. left. split; [reflexivity |]. split; [eauto | auto].
    - rewrite (Hr r H). simpl. split; [reflexivity |].
      left. split; [reflexivity | eauto]. }
  destruct (String.eqb_spec (httpMethod event) "OPTIONS") as [Ho | Ho].
  { rewrite (handler_OPTIONS _ _ Ho). intros H. left.
    inversion H; subst; simpl. split; [assumption |].
    split; [reflexivity |]. split; [reflexivity | eauto]. }
  intros H. right. split; [assumption |].
  unfold handler, async_returning, try_catch in H.
  apply String.eqb_neq in Hg, Hp, Ha, Hd.
  pose proof (proj2 (String.eqb_neq _ _) Ho) as Ho'.
  rewrite Hg, Hp, Ha, Hd, Ho' in H. inversion H; subst; simpl.
  apply String.eqb_neq in Hg, Hp.
  split; [reflexivity |].
  right. right. left. split; [reflexivity |]. split; [eauto | auto].
Qed.

End Shapes.

(** X7. A GET request only reads: whatever its parameters and whatever the
    storage service answers, the table is as before, and exactly one
    storage request is issued, a scan or a get. *)
Theorem get_only_reads
    {rt : Runtime} (event : Event) (w : World) :
  httpMethod event = "GET" ->
  table (snd (handler event w)) = table w
  /\ exists c,
       (c = Scan \/ exists key, c = GetItem key)
       /\ calls (snd (handler event w)) = (calls w ++ [c])%list.
Proof.
  intros Hm. rewrite (handler_GET _ _ Hm).
  destruct (handleGet_run event w) as (c & Hc & Hs & _).
  rewrite Hs. split; [reflexivity |].
  exists c. split; [| reflexivity].
  destruct Hc as [-> | ->]; [now left | right; eauto].
Qed.

Lemma get_only_reads_witness :
  httpMethod (Sample.GET [("id", "11")]) = "GET"
  /\ table (snd (handler (rt := Reference.runtime)
                   (Sample.GET [("id", "11")]) Sample.abc))
     = table Sample.abc
  /\ exists c,
       (c = Scan \/ exists key, c = GetItem key)
       /\ calls (snd (handler (rt := Reference.runtime)
                        (Sample.GET [("id", "11")]) Sample.abc))
          = (calls Sample.abc ++ [c])%list.
Proof.
  split; [reflexivity |].
  exact (get_only_reads (rt := Reference.runtime)
           (Sample.GET [("id", "11")]) Sample.abc eq_refl).
Defined.

(** X8. The status of a response is 200, 400 or 513, and never 512: 400 is
    given only to methods other than GET and PUT, 513 only to a GET in the
    [before] mode. *)
Theorem status_is_200_400_or_513
    {rt : Runtime} (event : Event) (w : World) (r : Response) :
  fst (handler event w) = Fulfilled r ->
  statusCode r <> 512
  /\ (statusCode r = 200
      \/ statusCode r = 400
         /\ httpMethod event <> "GET" /\ httpMethod event <> "PUT"
      \/ statusCode r = 513
         /\ httpMethod event = "GET" /\ mode_by_value event = Before).
Proof.
  intros H.
  destruct (handler_fulfilled_shape event w r H)
    as [(_ & Hc & _) | (_ & _ & [(Hc & _) | [(Hc & _) | [(Hc & _ & Hg & Hp)
                                              | (Hc & _ & Hg & Hm)]]])];
    rewrite Hc; (split; [discriminate |]); auto.
Qed.

Lemma status_is_200_400_or_513_witness :
  fst (handler (rt := Reference.runtime) (Sample.GET [("before", "99")]) Sample.abc)
  = Fulfilled (error_response 513 "No item found by id 99")
  /\ statusCode (error_response 513 "No item found by id 99") <> 512
  /\ (statusCode (error_response 513 "No item found by id 99") = 200
      \/ statusCode (error_response 513 "No item found by id 99") = 400
         /\ httpMethod (Sample.GET [("before", "99")]) <> "GET"
         /\ httpMethod (Sample.GET [("before", "99")]) <> "PUT"
      \/ statusCode (error_response 513 "No item found by id 99") = 513
         /\ httpMethod (Sample.GET [("before", "99")]) = "GET"
         /\ mode_by_value (Sample.GET [("before", "99")]) = Before).
Proof.
  assert (H : fst (handler (rt := Reference.runtime)
                     (Sample.GET [("before", "99")]) Sample.abc)
              = Fulfilled (error_response 513 "No item found by id 99"))
    by (vm_compute; reflexivity).
  split; [exact H |].
  exact (status_is_200_400_or_513 (rt := Reference.runtime)
           (Sample.GET [("before", "99")]) Sample.abc _ H).
Defined.

(** X9. A response carries headers exactly when the method is OPTIONS: the
    answers to GET, PUT, PATCH and DELETE, and to an unsupported method,
    have no headers at all, so none of the CORS headers that the OPTIONS
    answer announces. *)
Theorem only_options_has_headers
    {rt : Runtime} (event : Event) (w : World) (r : Response) :
  fst (handler event w) = Fulfilled r ->
  (headers r <> None <-> httpMethod event = "OPTIONS").
Proof.
  intros H.
  destruct (handler_fulfilled_shape event w r H)
    as [(Hm & _ & Hh & _) | (Hm & Hh & _)]; rewrite Hh; split; intros X.
  - exact Hm.
  - discriminate.
  - now contradiction X.
  - now contradiction Hm.
Qed.

Lemma only_options_has_headers_witness :
  fst (handler (rt := Reference.runtime) (mkEvent "GET" None None) Sample.abc)
  = Fulfilled (ok (items_value [Sample.A; Sample.B; Sample.C]))
  /\ (headers (ok (items_value [Sample.A; Sample.B; Sample.C])) <> None
      <-> httpMethod (mkEvent "GET" None None) = "OPTIONS").
Proof.
  assert (H : fst (handler (rt := Reference.runtime) (mkEvent "GET" None None)
                     Sample.abc)
              = Fulfilled (ok (items_value [Sample.A; Sample.B; Sample.C])))
    by (vm_compute; reflexivity).
  split; [exact H |].
  exact (only_options_has_headers (rt := Reference.runtime)
           (mkEvent "GET" None None) Sample.abc _ H).
Defined.

(** X10. The body of a response is a string in every case but one: a GET
    in the by-id mode for which the table has no record under the id is
    answered with status 200 and [undefined] as body. *)
Theorem body_is_a_string_unless_get_by_id_misses
    {rt : Runtime} (event : Event) (w : World) (r : Response) :
  fst (handler event w) = Fulfilled r ->
  (exists s, body r = VStr s)
  \/ (body r = VUndefined /\ statusCode r = 200
      /\ httpMethod event = "GET" /\ mode_by_value event = ById
      /\ table_get (ToNumber (param event "id")) (table w) = VUndefined).
Proof.
  intros H.
  destruct (handler_fulfilled_shape event w r H)
    as [(_ & _ & _ & Hs) | (_ & _ & [(_ & Hs) | [(Hc & Hb & Hg & Hm & Ht)
                                        | [(_ & Hs & _) | (_ & Hs & _)]]])];
    auto.
  right. auto.
Qed.

Lemma body_is_a_string_unless_get_by_id_misses_witness :
  fst (handler (rt := Reference.runtime)
         (Sample.PATCH "11" "{}") Sample.abc)
  = Fulfilled (error_response 400 "No fields to update")
  /\ ((exists s, body (error_response 400 "No fields to update") = VStr s)
      \/ (body (error_response 400 "No fields to update") = VUndefined
          /\ statusCode (error_response 400 "No fields to update") = 200
          /\ httpMethod (Sample.PATCH "11" "{}") = "GET"
          /\ mode_by_value (Sample.PATCH "11" "{}") = ById
          /\ table_get (ToNumber (rt := Reference.runtime)
                          (param (Sample.PATCH "11" "{}") "id"))
               (table Sample.abc) = VUndefined)).
Proof.
  assert (H : fst (handler (rt := Reference.runtime)
                     (Sample.PATCH "11" "{}") Sample.abc)
              = Fulfilled (error_response 400 "No fields to update"))
    by (vm_compute; reflexivity).
  split; [exact H |].
  exact (body_is_a_string_unless_get_by_id_misses (rt := Reference.runtime)
           (Sample.PATCH "11" "{}") Sample.abc _ H).
Defined.

Section FaultFacts.

Context {rt : Runtime}.

Lemma handler_on_fault (event : Event) (w : World) (e : Error) :
  hd None (faults w) = Some e ->
  calls (snd (handler event w)) = calls w
  \/ (fst (handler event w) = Rejected e
      /\ exists c, calls (snd (handler event w)) = (calls w ++ [c])%list).
Proof.
  intros Hf.
  destruct (String.eqb_spec (httpMethod event) "GET") as [Hg | Hg].
  { rewrite (handler_GET _ _ Hg). right.
    destruct (handleGet_run event w) as (c & _ & Hs & He & _).
    split; [now apply He |]. exists c. now rewrite Hs. }
  destruct (String.eqb_spec (httpMethod event) "PUT") as [Hp | Hp].
  { rewrite (handler_PUT _ _ Hp).
    destruct (handlePut_outcome event w) as [(x & w' & E & _ & Hc) | (v & Hv & H1 & H2)].
    - left. now rewrite E.
    - right. rewrite (handlePut_run _ _ _ Hv H1 H2).
      destruct (after_timestamp_same v (tick w)) as (_ & Ec & Ef & _).
      destruct (put_outcome (new_post v w) (now w)
                  (tick (after_timestamp v (tick w))) eq_refl) as (Hr & _).
      simpl in Hr. rewrite Ef in Hr. destruct (Hr e Hf) as [R C].
      split; [exact R |]. eexists. rewrite C, Ec. reflexivity. }
  destruct (String.eqb_spec (httpMethod event) "PATCH") as [Ha | Ha].
  { rewrite (handler_PATCH _ _ Ha).
    destruct (handlePatch_outcome event w)
      as [E | [(x & E) | [E | (k & ex & vs & E)]]]; rewrite E;
      try (left; reflexivity).
    right. destruct (update_outcome k ex vs w) as (C & R & _).
    split; [now apply R | eexists; exact C]. }
  destruct (String.eqb_spec (httpMethod event) "DELETE") as [Hd | Hd].
  { rewrite (handler_DELETE _ _ Hd).
    destruct (handleDelete_run event w) as [E | (k & Hs & R & _)].
    - left. now rewrite E.
    - right. split; [now apply R |]. exists (DeleteItem k). now rewrite Hs. }
  left.
  destruct (String.eqb_spec (httpMethod event) "OPTIONS") as [Ho | Ho].
  { now rewrite (handler_OPTIONS _ _ Ho). }
  unfold handler, async_returning, try_catch.
  apply String.eqb_neq in Hg, Hp, Ha, Hd, Ho.
  now rewrite Hg, Hp, Ha, Hd, Ho.
Qed.

End FaultFacts.

(** X11. A storage error is passed on as it is and nothing is retried: when
    the storage service answers the first request of an invocation with an
    error, the promise of the handler is rejected with that very error, and
    that request is the only one issued. *)
Theorem storage_fault_rejects_without_retry
    {rt : Runtime} (event : Event) (w : World) (e : Error) :
  hd None (faults w) = Some e ->
  calls (snd (handler event w)) <> calls w ->
  fst (handler event w) = Rejected e
  /\ exists c, calls (snd (handler event w)) = (calls w ++ [c])%list.
Proof.
  intros Hf Hc. destruct (handler_on_fault event w e Hf) as [E | H];
    [contradiction | exact H].
Qed.

Lemma storage_fault_rejects_without_retry_witness :
  hd None (faults Sample.down) = Some Sample.outage
  /\ calls (snd (handler (rt := Reference.runtime)
                   (Sample.PUT "{}") Sample.down)) <> calls Sample.down
  /\ fst (handler (rt := Reference.runtime) (Sample.PUT "{}") Sample.down)
     = Rejected Sample.outage
  /\ exists c, calls (snd (handler (rt := Reference.runtime)
                            (Sample.PUT "{}") Sample.down))
               = (calls Sample.down ++ [c])%list.
Proof.
  assert (Hc : calls (snd (handler (rt := Reference.runtime)
                             (Sample.PUT "{}") Sample.down))
               <> calls Sample.down)
    by (vm_compute; discriminate).
  split; [reflexivity |]. split; [exact Hc |].
  exact (storage_fault_rejects_without_retry (rt := Reference.runtime)
           (Sample.PUT "{}") Sample.down Sample.outage eq_refl Hc).
Defined.

(** X12. The write and the read-back of a PUT are two requests: when the
    storage service serves the put and fails the get that follows, the
    promise is rejected with the error of the get, and the new record is
    in the table all the same. *)
Theorem put_is_kept_when_the_read_back_fails
    {rt : Runtime} (event : Event) (w : World) (v : Value) (e : Error) :
  httpMethod event = "PUT" ->
  JSON_parse (body_text event) = Normal v ->
  v <> VNull -> v <> VUndefined ->
  hd None (faults w) = None ->
  hd None (tl (faults w)) = Some e ->
  exists item,
    get_prop item "id" = VNum (Int (now w))
    /\ fst (handler event w) = Rejected e
    /\ calls (snd (handler event w))
       = (calls w ++ [PutItem item; GetItem (Int (now w))])%list
    /\ In item (table (snd (handler event w))).
Proof.
  intros Hm Hv H1 H2 Hf1 Hf2.
  rewrite (handler_PUT _ _ Hm), (handlePut_run _ _ _ Hv H1 H2).
  destruct (after_timestamp_same v (tick w)) as (_ & Ec & Ef & _).
  destruct (put_outcome (new_post v w) (now w)
              (tick (after_timestamp v (tick w))) eq_refl) as (_ & Hr & _).
  simpl in Hr. rewrite Ef in Hr. destruct (Hr e Hf1 Hf2) as (R & C & I).
  exists (new_post v w). split; [reflexivity |]. split; [exact R |].
  split; [| exact I]. rewrite C, Ec. reflexivity.
Qed.

Lemma put_is_kept_when_the_read_back_fails_witness :
  httpMethod (Sample.PUT "{}") = "PUT"
  /\ Reference.json_parse (body_text (Sample.PUT "{}")) = Normal (VObj [])
  /\ VObj [] <> VNull
  /\ VObj [] <> VUndefined
  /\ hd None (faults Sample.read_back_fails) = None
  /\ hd None (tl (faults Sample.read_back_fails)) = Some Sample.outage
  /\ exists item,
       get_prop item "id" = VNum (Int (now Sample.read_back_fails))
       /\ fst (handler (rt := Reference.runtime) (Sample.PUT "{}")
                 Sample.read_back_fails)
          = Rejected Sample.outage
       /\ calls (snd (handler (rt := Reference.runtime) (Sample.PUT "{}")
                        Sample.read_back_fails))
          = (calls Sample.read_back_fails
             ++ [PutItem item; GetItem (Int (now Sample.read_back_fails))])%list
       /\ In item (table (snd (handler (rt := Reference.runtime)
                                 (Sample.PUT "{}") Sample.read_back_fails))).
Proof.
  assert (H1 : VObj [] <> VNull) by discriminate.
  assert (H2 : VObj [] <> VUndefined) by discriminate.
  do 6 (split; [first [reflexivity | assumption] |]).
  exact (put_is_kept_when_the_read_back_fails (rt := Reference.runtime)
           (Sample.PUT "{}") Sample.read_back_fails (VObj []) Sample.outage
           eq_refl eq_refl H1 H2 eq_refl eq_refl).
Defined.

(** X13. A PUT request, or a PATCH request with an [id], that has no body
    is not refused with a client error: [JSON.parse(null)] is [null], the
    first property read on it throws, and the promise is rejected with a
    [TypeError]. Nothing is sent to the storage service. *)
Theorem request_without_body_is_rejected
    {rt : Runtime} (event : Event) (w : World) :
  httpMethod event = "PUT"
  \/ (httpMethod event = "PATCH" /\ is_given event "id" = true) ->
  event_body event = None ->
  JSON_parse "null" = Normal VNull ->
  exists e,
    fst (handler event w) = Rejected e
    /\ error_name e = "TypeError"
    /\ calls (snd (handler event w)) = calls w
    /\ table (snd (handler event w)) = table w.
Proof.
  intros Hm Hb Hp.
  assert (Hparse : JSON_parse (body_text event) = Normal VNull).
  { unfold body_text. rewrite Hb. exact Hp. }
  destruct Hm as [Hm | [Hm Hi]].
  - rewrite (handler_PUT _ _ Hm).
    unfold handlePut, async, bind, lift. rewrite Hparse. simpl.
    eexists. repeat split.
  - rewrite (handler_PATCH _ _ Hm).
    unfold handlePatch. rewrite truthy_param, Hi.
    unfold async, bind, lift. rewrite Hparse. simpl.
    eexists. repeat split.
Qed.

Lemma request_without_body_is_rejected_witness :
  (httpMethod (mkEvent "PATCH" (Some [("id", "11")]) None) = "PUT"
   \/ (httpMethod (mkEvent "PATCH" (Some [("id", "11")]) None) = "PATCH"
       /\ is_given (mkEvent "PATCH" (Some [("id", "11")]) None) "id" = true))
  /\ event_body (mkEvent "PATCH" (Some [("id", "11")]) None) = None
  /\ Reference.json_parse "null" = Normal VNull
  /\ exists e,
       fst (handler (rt := Reference.runtime)
              (mkEvent "PATCH" (Some [("id", "11")]) None) Sample.abc)
       = Rejected e
       /\ error_name e = "TypeError"
       /\ calls (snd (handler (rt := Reference.runtime)
                        (mkEvent "PATCH" (Some [("id", "11")]) None) Sample.abc))
          = calls Sample.abc
       /\ table (snd (handler (rt := Reference.runtime)
                        (mkEvent "PATCH" (Some [("id", "11")]) None) Sample.abc))
          = table Sample.abc.
Proof.
  split; [right; split; reflexivity |].
  do 2 (split; [reflexivity |]).
  exact (request_without_body_is_rejected (rt := Reference.runtime)
           (mkEvent "PATCH" (Some [("id", "11")]) None) Sample.abc
           (or_intror (conj eq_refl eq_refl)) eq_refl eq_refl).
Defined.

(** X14. A PATCH body that has a property named [hasOwnProperty] of its own
    breaks the presence test: the call [requestJSON.hasOwnProperty(...)]
    finds that property, which is no function, and throws. The promise is
    rejected with a [TypeError] and no update is issued, whatever fields
    the body names besides. *)
Theorem patch_body_that_shadows_the_test_is_rejected
    {rt : Runtime} (event : Event) (w : World) (o : Props) :
  httpMethod event = "PATCH" ->
  is_given event "id" = true ->
  JSON_parse (body_text event) = Normal (VObj o) ->
  has_own o "hasOwnProperty" = true ->
  exists e,
    handler event w = (Rejected e, w) /\ error_name e = "TypeError".
Proof.
  intros Hm Hi Hp Hs. rewrite (handler_PATCH _ _ Hm).
  unfold handlePatch. rewrite truthy_param, Hi.
  unfold async, bind at 1, lift. rewrite Hp.
  unfold bind at 1, add_field, bind at 1, lift, hasOwnProperty. rewrite Hs.
  eexists. split; reflexivity.
Qed.

Lemma patch_body_that_shadows_the_test_is_rejected_witness :
  httpMethod Sample.shadowing = "PATCH"
  /\ is_given Sample.shadowing "id" = true
  /\ Reference.json_parse (body_text Sample.shadowing)
     = Normal (VObj [("votes", VNum (Int 1)); ("hasOwnProperty", VNum (Int 1))])
  /\ has_own [("votes", VNum (Int 1)); ("hasOwnProperty", VNum (Int 1))]
       "hasOwnProperty" = true
  /\ exists e,
       handler (rt := Reference.runtime) Sample.shadowing Sample.abc
       = (Rejected e, Sample.abc)
       /\ error_name e = "TypeError".
Proof.
  assert (Hp : Reference.json_parse (body_text Sample.shadowing)
               = Normal (VObj [("votes", VNum (Int 1));
                               ("hasOwnProperty", VNum (Int 1))]))
    by (vm_compute; reflexivity).
  do 4 (split; [first [reflexivity | assumption] |]).
  exact (patch_body_that_shadows_the_test_is_rejected (rt := Reference.runtime)
           Sample.shadowing Sample.abc
           [("votes", VNum (Int 1)); ("hasOwnProperty", VNum (Int 1))]
           eq_refl eq_refl Hp eq_refl).
Defined.

(** X15. Create and fetch agree: after a PUT that the storage service
    serves, a GET by the id of the new record (the reading of the clock
    when the PUT began) is answered with the very response the PUT gave. *)
Theorem put_then_get_by_id_gives_the_same_answer
    {rt : Runtime} (put get : Event) (w : World) (v : Value) (i : string) :
  httpMethod put = "PUT" ->
  JSON_parse (body_text put) = Normal v ->
  v <> VNull -> v <> VUndefined ->
  hd None (faults w) = None ->
  hd None (tl (faults w)) = None ->
  hd None (tl (tl (faults w))) = None ->
  httpMethod get = "GET" ->
  mode_by_value get = ById ->
  parameter get "id" = Some i ->
  StringToNumber i = Int (now w) ->
  fst (handler get (snd (handler put w))) = fst (handler put w).
Proof.
  intros Hm Hv H1 H2 F1 F2 F3 Hg Hmode Hi Hn.
  destruct (after_timestamp_same v (tick w)) as (_ & _ & Ef & _).
  rewrite (handler_PUT _ _ Hm), (handlePut_run _ _ _ Hv H1 H2).
  rewrite (put_then_get (new_post v w) (now w))
    by (try reflexivity; simpl; rewrite Ef; assumption).
  simpl fst. simpl snd.
  rewrite (handler_GET _ _ Hg), handleGet_mode, Hmode. simpl run_mode.
  unfold async, get_by_id, bind, await, dynamo_get.
  rewrite request_served by (simpl; rewrite Ef; exact F3).
  rewrite param_parameter, Hi. simpl ToNumber. rewrite Hn. simpl.
  rewrite table_get_put by (unfold has_key; simpl; apply Z.eqb_refl).
  reflexivity.
Qed.

Lemma put_then_get_by_id_gives_the_same_answer_witness :
  httpMethod (Sample.PUT Sample.with_ttl) = "PUT"
  /\ Reference.json_parse (body_text (Sample.PUT Sample.with_ttl))
     = Normal (VObj Sample.with_ttl_object)
  /\ hd None (faults Sample.abc) = None
  /\ httpMethod (Sample.GET [("id", "1700000000000")]) = "GET"
  /\ mode_by_value (Sample.GET [("id", "1700000000000")]) = ById
  /\ Reference.string_to_number "1700000000000" = Int (now Sample.abc)
  /\ fst (handler (rt := Reference.runtime) (Sample.GET [("id", "1700000000000")])
            (snd (handler (rt := Reference.runtime)
                    (Sample.PUT Sample.with_ttl) Sample.abc)))
     = fst (handler (rt := Reference.runtime) (Sample.PUT Sample.with_ttl)
              Sample.abc).
Proof.
  assert (Hp : Reference.json_parse (body_text (Sample.PUT Sample.with_ttl))
               = Normal (VObj Sample.with_ttl_object))
    by (vm_compute; reflexivity).
  assert (H1 : VObj Sample.with_ttl_object <> VNull) by discriminate.
  assert (H2 : VObj Sample.with_ttl_object <> VUndefined) by discriminate.
  assert (Hn : Reference.string_to_number "1700000000000" = Int (now Sample.abc))
    by (vm_compute; reflexivity).
  do 6 (split; [first [reflexivity | assumption] |]).
  exact (put_then_get_by_id_gives_the_same_answer (rt := Reference.runtime)
           (Sample.PUT Sample.with_ttl) (Sample.GET [("id", "1700000000000")])
           Sample.abc (VObj Sample.with_ttl_object) "1700000000000"
           eq_refl Hp H1 H2 eq_refl eq_refl eq_refl eq_refl eq_refl eq_refl Hn).
Defined.

(** X16. A PUT takes [content], [timestamp] and [votes] from the body as
    they are, of whatever type, and treats an explicit [null] like an
    omitted field: the defaults are the empty string, the next reading of
    the clock, and 0. The [id] is always the reading of the clock when the
    PUT began; an [id] in the body is ignored. *)
Theorem put_keeps_given_fields_and_defaults_the_rest
    {rt : Runtime} (event : Event) (w : World) (o : Props) :
  httpMethod event = "PUT" ->
  JSON_parse (body_text event) = Normal (VObj o) ->
  exists item rest,
    calls (snd (handler event w)) = (calls w ++ PutItem item :: rest)%list
    /\ get_prop item "id" = VNum (Int (now w))
    /\ get_prop item "content"
       = match get_prop o "content" with
         | VUndefined | VNull => VStr EmptyString
         | given => given
         end
    /\ get_prop item "timestamp"
       = match get_prop o "timestamp" with
         | VUndefined | VNull => VNum (Int (now w + hd 0 (ticks w)))
         | given => given
         end
    /\ get_prop item "votes"
       = match get_prop o "votes" with
         | VUndefined | VNull => VNum (Int 0)
         | given => given
         end
    /\ map fst item = ["id"; "content"; "timestamp"; "votes"; "ttl"].
Proof.
  intros Hm Hp.
  assert (H1 : VObj o <> VNull) by discriminate.
  assert (H2 : VObj o <> VUndefined) by discriminate.
  rewrite (handler_PUT _ _ Hm), (handlePut_run _ _ _ Hp H1 H2).
  destruct (put_requests (new_post (VObj o) w) (now w)
              (tick (after_timestamp (VObj o) (tick w))) eq_refl)
    as ([rest Hc] & _ & _).
  destruct (after_timestamp_same (VObj o) (tick w)) as (_ & Ec & _ & _).
  exists (new_post (VObj o) w), rest.
  split; [rewrite Hc; simpl; now rewrite Ec |].
  split; [reflexivity |].
  split; [simpl; destruct (get_prop o "content"); reflexivity |].
  split; [simpl; destruct (get_prop o "timestamp"); reflexivity |].
  split; [simpl; destruct (get_prop o "votes"); reflexivity | reflexivity].
Qed.

Lemma put_keeps_given_fields_and_defaults_the_rest_witness :
  httpMethod (Sample.PUT Sample.with_ttl) = "PUT"
  /\ Reference.json_parse (body_text (Sample.PUT Sample.with_ttl))
     = Normal (VObj Sample.with_ttl_object)
  /\ exists item rest,
       calls (snd (handler (rt := Reference.runtime)
                     (Sample.PUT Sample.with_ttl) Sample.ticking))
       = (calls Sample.ticking ++ PutItem item :: rest)%list
       /\ get_prop item "id" = VNum (Int (now Sample.ticking))
       /\ get_prop item "content" = VStr "hi"
       /\ get_prop item "timestamp" = VNum (Int 1700000001000)
       /\ get_prop item "votes" = VNum (Int 0)
       /\ map fst item = ["id"; "content"; "timestamp"; "votes"; "ttl"].
Proof.
  assert (Hp : Reference.json_parse (body_text (Sample.PUT Sample.with_ttl))
               = Normal (VObj Sample.with_ttl_object))
    by (vm_compute; reflexivity).
  do 2 (split; [first [reflexivity | assumption] |]).
  exact (put_keeps_given_fields_and_defaults_the_rest (rt := Reference.runtime)
           (Sample.PUT Sample.with_ttl) Sample.ticking Sample.with_ttl_object
           eq_refl Hp).
Defined.

Lemma delete_served {rt : Runtime} (event : Event) (w : World) (i : string) :
  httpMethod event = "DELETE" ->
  parameter event "id" = Some i ->
  i <> EmptyString ->
  hd None (faults w) = None ->
  faults (snd (handler event w)) = tl (faults w)
  /\ existsb (has_key (StringToNumber i)) (table (snd (handler event w))) = false.
Proof.
  intros Hm Hi Hne Hf.
  rewrite (handler_DELETE _ _ Hm), (handleDelete_with_id _ _ _ Hi Hne).
  unfold async, bind, await, dynamo_delete.
  rewrite (request_served _ _ _ Hf). simpl.
  split; [reflexivity | apply existsb_filter_out].
Qed.

(** X17. Delete and fetch agree: after a DELETE that the storage service
    serves, a GET by the same id is answered with status 200 and
    [undefined] as body, as for an id that never existed. *)
Theorem delete_then_get_by_id_finds_nothing
    {rt : Runtime} (delete get : Event) (w : World) (i : string) :
  httpMethod delete = "DELETE" ->
  parameter delete "id" = Some i ->
  i <> EmptyString ->
  hd None (faults w) = None ->
  hd None (tl (faults w)) = None ->
  httpMethod get = "GET" ->
  mode_by_value get = ById ->
  parameter get "id" = Some i ->
  fst (handler get (snd (handler delete w)))
  = Fulfilled {| statusCode := 200; headers := None; body := VUndefined |}.
Proof.
  intros Hm Hi Hne F1 F2 Hg Hmode Hj.
  destruct (delete_served delete w i Hm Hi Hne F1) as (Hf & Hk).
  apply (get_by_id_absent get _ i Hg Hmode Hj); [now rewrite Hf | exact Hk].
Qed.

Lemma delete_then_get_by_id_finds_nothing_witness :
  httpMethod (Sample.DELETE [("id", "11")]) = "DELETE"
  /\ parameter (Sample.DELETE [("id", "11")]) "id" = Some "11"
  /\ "11" <> EmptyString
  /\ hd None (faults Sample.abc) = None
  /\ hd None (tl (faults Sample.abc)) = None
  /\ httpMethod (Sample.GET [("id", "11")]) = "GET"
  /\ mode_by_value (Sample.GET [("id", "11")]) = ById
  /\ parameter (Sample.GET [("id", "11")]) "id" = Some "11"
  /\ fst (handler (rt := Reference.runtime) (Sample.GET [("id", "11")])
            (snd (handler (rt := Reference.runtime)
                    (Sample.DELETE [("id", "11")]) Sample.abc)))
     = Fulfilled {| statusCode := 200; headers := None; body := VUndefined |}.
Proof.
  assert (Hne : "11" <> EmptyString) by discriminate.
  do 8 (split; [first [reflexivity | assumption] |]).
  exact (delete_then_get_by_id_finds_nothing (rt := Reference.runtime)
           (Sample.DELETE [("id", "11")]) (Sample.GET [("id", "11")])
           Sample.abc "11" eq_refl eq_refl Hne eq_refl eq_refl eq_refl eq_refl
           eq_refl).
Defined.

(** X18. A PUT request, or a PATCH request with an [id], whose body is not
    JSON ends in a promise rejected with the error of [JSON.parse]; the
    parse comes first, so the clock is not read and nothing is sent to the
    storage service: the world is as before. *)
Theorem body_that_is_not_json_rejects_and_changes_nothing
    {rt : Runtime} (event : Event) (w : World) (e : Error) :
  httpMethod event = "PUT"
  \/ (httpMethod event = "PATCH" /\ is_given event "id" = true) ->
  JSON_parse (body_text event) = Throw e ->
  handler event w = (Rejected e, w).
Proof.
  intros [Hm | [Hm Hi]] Hp.
  - now apply put_unparsable.
  - rewrite (handler_PATCH _ _ Hm).
    unfold handlePatch. rewrite truthy_param, Hi.
    unfold async, bind, lift. now rewrite Hp.
Qed.

Lemma body_that_is_not_json_rejects_and_changes_nothing_witness :
  (httpMethod (Sample.PATCH "11" "{votes: 0}") = "PUT"
   \/ (httpMethod (Sample.PATCH "11" "{votes: 0}") = "PATCH"
       /\ is_given (Sample.PATCH "11" "{votes: 0}") "id" = true))
  /\ Reference.json_parse (body_text (Sample.PATCH "11" "{votes: 0}"))
     = Throw (SyntaxError "Unexpected token in JSON")
  /\ handler (rt := Reference.runtime) (Sample.PATCH "11" "{votes: 0}") Sample.abc
     = (Rejected (SyntaxError "Unexpected token in JSON"), Sample.abc).
Proof.
  assert (Hp : Reference.json_parse (body_text (Sample.PATCH "11" "{votes: 0}"))
               = Throw (SyntaxError "Unexpected token in JSON"))
    by (vm_compute; reflexivity).
  split; [right; split; reflexivity |]. split; [exact Hp |].
  exact (body_that_is_not_json_rejects_and_changes_nothing
           (rt := Reference.runtime) (Sample.PATCH "11" "{votes: 0}") Sample.abc
           (SyntaxError "Unexpected token in JSON")
           (or_intror (conj eq_refl eq_refl)) Hp).
Defined.
